(** * Bay Trail chipset power sequencing (power/baytrail.c)

    A shallow embedding of the x86 "baytrail" power state machine of the
    Chrome EC: [chipset_force_shutdown], [chipset_reset],
    [power_chipset_init], [power_handle_state] and the two console
    commands.  The C functions read hardware inputs and drive GPIOs; here
    they are computations in a small state monad over the module's static
    variables, the levels last driven on each GPIO and the clock, which
    also return the list of externally visible actions they performed.
    Hardware inputs come from an [environment], indexed by time; the
    power signal mask also depends on the levels the EC drives, since
    the rails answer to their enables. *)

From Stdlib Require Import ZArith List String Bool Lia.
Import ListNotations.
Local Open Scope Z_scope.

(** ** Enumerations *)

(** [enum power_state]: four steady states and six transitions. *)
Inductive power_state : Type :=
| POWER_G3 | POWER_S5 | POWER_S3 | POWER_S0
| POWER_G3S5 | POWER_S5S3 | POWER_S3S0
| POWER_S0S3 | POWER_S3S5 | POWER_S5G3.

(** The power signals named by the [IN_*] masks. *)
Inductive power_signal : Type :=
| X86_PGOOD_PP5000 | X86_PGOOD_PP1050 | X86_PGOOD_S5 | X86_PGOOD_VCORE
| X86_SLP_S3_DEASSERTED | X86_SLP_S4_DEASSERTED.

(** The GPIO lines the module reads or drives. *)
Inductive gpio_signal : Type :=
| GPIO_PCH_SYS_PWROK | GPIO_PCH_CORE_PWROK | GPIO_PCH_RSMRST_L
| GPIO_PCH_RCIN_L | GPIO_PCH_SLP_S3_L | GPIO_PCH_SLP_S4_L
| GPIO_CPU_PROCHOT | GPIO_VCORE_EN | GPIO_SUSP_VR_EN | GPIO_PP1350_EN
| GPIO_PP3300_DX_EN | GPIO_PP5000_EN
| GPIO_TOUCHSCREEN_RESET_L | GPIO_ENABLE_TOUCHPAD.

Inductive hook_type : Type :=
| HOOK_CHIPSET_STARTUP | HOOK_CHIPSET_RESUME
| HOOK_CHIPSET_SUSPEND | HOOK_CHIPSET_SHUTDOWN.

Inductive wireless_state : Type :=
| WIRELESS_OFF | WIRELESS_SUSPEND | WIRELESS_ON.

Inductive sleep_mask : Type :=
| SLEEP_MASK_AP_RUN.

(** The members of [enum ec_error_list] this module returns or tests;
    [EC_SUCCESS] is the one that is zero. *)
Inductive ec_error_list : Type :=
| EC_SUCCESS | EC_ERROR_TIMEOUT | EC_ERROR_INVAL.

Definition gpio_signal_eq_dec (x y : gpio_signal) : {x = y} + {x <> y}.
Proof. decide equality. Defined.

Definition power_state_eq_dec (x y : power_state) : {x = y} + {x <> y}.
Proof. decide equality. Defined.

(** ** Externally visible actions *)

Inductive event : Type :=
| EvConsole (text : string) (args : list Z)   (* CPRINTS, ccprintf *)
| EvGpioSet (g : gpio_signal) (level : Z)     (* gpio_set_level *)
| EvSleep (us : Z)                            (* usleep, msleep *)
| EvUdelay (us : Z)                           (* udelay *)
| EvHook (h : hook_type)                      (* hook_notify *)
| EvWireless (s : wireless_state)             (* wireless_set_state *)
| EvDisableSleep (m : sleep_mask)
| EvEnableSleep (m : sleep_mask)
| EvButtonRelease                             (* power_button_pch_release *)
| EvButtonPulse                               (* power_button_pch_pulse *)
| EvPowerLost (want got : Z)                  (* power_has_signals failed *)
| EvPowerTimeout (want got : Z).              (* power_wait_signals timed out *)

(** ** Board, environment and module state *)

(** What board.h and the build configuration fix: the value of each
    [enum power_signal] member (its bit in the signal mask) and whether
    CONFIG_USB_PORT_POWER_IN_S3 is defined. *)
Record board : Type := {
  signal_index : power_signal -> Z;
  CONFIG_USB_PORT_POWER_IN_S3 : bool
}.

Definition all_power_signals : list power_signal :=
  [X86_PGOOD_PP5000; X86_PGOOD_PP1050; X86_PGOOD_S5; X86_PGOOD_VCORE;
   X86_SLP_S3_DEASSERTED; X86_SLP_S4_DEASSERTED].

Fixpoint distinctb (l : list Z) : bool :=
  match l with
  | [] => true
  | x :: r => negb (existsb (Z.eqb x) r) && distinctb r
  end.

(** A signal numbering is usable when every signal has its own bit of a
    32-bit mask. *)
Definition board_ok (b : board) : bool :=
  forallb (fun s => (0 <=? signal_index b s) && (signal_index b s <? 32))
          all_power_signals
  && distinctb (map (signal_index b) all_power_signals).

(** The hardware as the EC sees it, by time in microseconds.  The power
    signal mask is given for the levels currently driven on the GPIOs
    and the time: enabling a rail can bring a power-good up, or pull
    another one down. *)
Record environment : Type := {
  in_signals : (gpio_signal -> Z) -> Z -> Z;   (* debounced signal mask *)
  pin_level : gpio_signal -> Z -> Z;   (* electrical level of a pin *)
  lid_open : Z -> Z;
  pltrst_asserted : Z -> Z;
  usb_ports_enabled : Z -> Z;
  jumped_to_this_image : Z;
  wait_timeout : nat                   (* power_wait_signals timeout, us *)
}.

(** The module's static variables, the level last driven on each GPIO,
    and the clock. *)
Record world : Type := mkWorld {
  gpio : gpio_signal -> Z;
  throttle_cpu : Z;
  pause_in_s5 : Z;
  restart_from_s5 : Z;
  fake_pltrst_timeout : Z;
  now : Z
}.

Definition set_gpio (g : gpio_signal) (v : Z) (w : world) : world :=
  mkWorld (fun g' => if gpio_signal_eq_dec g g' then v else gpio w g')
          (throttle_cpu w) (pause_in_s5 w) (restart_from_s5 w)
          (fake_pltrst_timeout w) (now w).

Definition set_pause_in_s5 (v : Z) (w : world) : world :=
  mkWorld (gpio w) (throttle_cpu w) v (restart_from_s5 w)
          (fake_pltrst_timeout w) (now w).

Definition set_restart_from_s5 (v : Z) (w : world) : world :=
  mkWorld (gpio w) (throttle_cpu w) (pause_in_s5 w) v
          (fake_pltrst_timeout w) (now w).

Definition set_fake_pltrst_timeout (v : Z) (w : world) : world :=
  mkWorld (gpio w) (throttle_cpu w) (pause_in_s5 w) (restart_from_s5 w)
          v (now w).

Definition set_now (t : Z) (w : world) : world :=
  mkWorld (gpio w) (throttle_cpu w) (pause_in_s5 w) (restart_from_s5 w)
          (fake_pltrst_timeout w) t.

(** ** The monad *)

Definition M (A : Type) : Type := world -> A * world * list event.

Definition ret {A} (a : A) : M A := fun w => (a, w, []).

Definition bind {A B} (m : M A) (f : A -> M B) : M B := fun w =>
  let '(a, w1, e1) := m w in
  let '(r, w2, e2) := f a w1 in
  (r, w2, e1 ++ e2).

Declare Scope m_scope.
Delimit Scope m_scope with m.
Notation "x <- m ;; k" := (bind m (fun x => k))
  (at level 61, m at next level, right associativity) : m_scope.
Notation "m ;; k" := (bind m (fun _ => k))
  (at level 61, right associativity) : m_scope.
Local Open Scope m_scope.

Definition emit (e : event) : M unit := fun w => (tt, w, [e]).
Definition read {A} (f : world -> A) : M A := fun w => (f w, w, []).
Definition modify (f : world -> world) : M unit := fun w => (tt, f w, []).

Definition result_of {A} (r : A * world * list event) : A := fst (fst r).
Definition world_of {A} (r : A * world * list event) : world := snd (fst r).
Definition events_of {A} (r : A * world * list event) : list event := snd r.

(** A C [int] used as a condition. *)
Definition truthy (z : Z) : bool := negb (z =? 0).

Definition MSEC : Z := 1000.

(** ** Collaborators *)

Section Machine.

Variable b : board.
Variable env : environment.

(** [POWER_SIGNAL_MASK]: the mask bit of a signal. *)
Definition POWER_SIGNAL_MASK (s : power_signal) : Z :=
  Z.shiftl 1 (signal_index b s).

(* Input state flags *)
Definition IN_PGOOD_PP5000 : Z := POWER_SIGNAL_MASK X86_PGOOD_PP5000.
Definition IN_PGOOD_PP1050 : Z := POWER_SIGNAL_MASK X86_PGOOD_PP1050.
Definition IN_PGOOD_S5 : Z := POWER_SIGNAL_MASK X86_PGOOD_S5.
Definition IN_PGOOD_VCORE : Z := POWER_SIGNAL_MASK X86_PGOOD_VCORE.
Definition IN_SLP_S3_DEASSERTED : Z := POWER_SIGNAL_MASK X86_SLP_S3_DEASSERTED.
Definition IN_SLP_S4_DEASSERTED : Z := POWER_SIGNAL_MASK X86_SLP_S4_DEASSERTED.

(* All always-on supplies *)
Definition IN_PGOOD_ALWAYS_ON : Z := IN_PGOOD_S5.
(* All non-core power rails *)
Definition IN_PGOOD_ALL_NONCORE : Z := IN_PGOOD_PP5000.
(* All core power rails *)
Definition IN_PGOOD_ALL_CORE : Z := IN_PGOOD_VCORE.
(* Rails required for S3 *)
Definition IN_PGOOD_S3 : Z := IN_PGOOD_ALWAYS_ON.
(* Rails required for S0 *)
Definition IN_PGOOD_S0 : Z := Z.lor IN_PGOOD_ALWAYS_ON IN_PGOOD_ALL_NONCORE.

(* All PM_SLP signals from PCH deasserted *)
Definition IN_ALL_PM_SLP_DEASSERTED : Z :=
  Z.lor IN_SLP_S3_DEASSERTED IN_SLP_S4_DEASSERTED.
(* All inputs in the right state for S0 *)
Definition IN_ALL_S0 : Z :=
  Z.lor (Z.lor (Z.lor IN_PGOOD_ALWAYS_ON IN_PGOOD_ALL_NONCORE)
               IN_PGOOD_ALL_CORE)
        IN_ALL_PM_SLP_DEASSERTED.

Definition CPRINTS (text : string) (args : list Z) : M unit :=
  emit (EvConsole text args).

Definition ccprintf (text : string) (args : list Z) : M unit :=
  emit (EvConsole text args).

Definition gpio_set_level (g : gpio_signal) (v : Z) : M unit :=
  modify (set_gpio g v) ;; emit (EvGpioSet g v).

Definition gpio_get_level (g : gpio_signal) : M Z :=
  read (fun w => pin_level env g (now w)).

Definition usleep (us : Z) : M unit :=
  modify (fun w => set_now (now w + us) w) ;; emit (EvSleep us).

Definition msleep (ms : Z) : M unit := usleep (ms * MSEC).

Definition udelay (us : Z) : M unit :=
  modify (fun w => set_now (now w + us) w) ;; emit (EvUdelay us).

Definition hook_notify (h : hook_type) : M unit := emit (EvHook h).
Definition wireless_set_state (s : wireless_state) : M unit :=
  emit (EvWireless s).
Definition disable_sleep (m : sleep_mask) : M unit := emit (EvDisableSleep m).
Definition enable_sleep (m : sleep_mask) : M unit := emit (EvEnableSleep m).
Definition power_button_pch_release : M unit := emit EvButtonRelease.
Definition power_button_pch_pulse : M unit := emit EvButtonPulse.

Definition lid_is_open : M Z := read (fun w => lid_open env (now w)).
Definition lpc_get_pltrst_asserted : M Z :=
  read (fun w => pltrst_asserted env (now w)).
Definition usb_charge_ports_enabled : M Z :=
  read (fun w => usb_ports_enabled env (now w)).
Definition system_jumped_to_this_image : M Z :=
  read (fun _ => jumped_to_this_image env).

(** Modelled from the spec: the Signal Source (common power code) is not
    among the sources.  [has_all mask required] is true iff every bit in
    [required] is set in [mask]. *)
Definition has_all (mask required : Z) : bool :=
  Z.land mask required =? required.

(** Modelled from the spec: [signal_read], a side-effect-free snapshot of
    the current mask. *)
Definition power_get_signals : M Z :=
  read (fun w => in_signals env (gpio w) (now w)).

(** Modelled from the spec: [power_has_signals] is [has_all] on the live
    mask; a fault is logged to the diagnostic console. *)
Definition power_has_signals (want : Z) : M Z := fun w =>
  let got := in_signals env (gpio w) (now w) in
  if has_all got want then (1, w, [])
  else (0, w, [EvPowerLost want (Z.land got want)]).

(** The first instant from [t] on, within [fuel] microseconds, at which
    every bit of [want] is set, the GPIOs being held at [lines]. *)
Fixpoint wait_all (want : Z) (lines : gpio_signal -> Z) (t : Z) (fuel : nat)
  : option Z :=
  if has_all (in_signals env lines t) want then Some t
  else match fuel with
       | O => None
       | S fuel' => wait_all want lines (t + 1) fuel'
       end.

(** Modelled from the spec: [wait_all(required, timeout)] blocks until
    either all bits in [required] become set or the timeout elapses, and
    returns success or timeout, never partial; the fault is logged. *)
Definition power_wait_signals (want : Z) : M ec_error_list := fun w =>
  match wait_all want (gpio w) (now w) (wait_timeout env) with
  | Some t => (EC_SUCCESS, set_now t w, [])
  | None =>
      let t := now w + Z.of_nat (wait_timeout env) in
      (EC_ERROR_TIMEOUT, set_now t w,
       [EvPowerTimeout want (Z.land (in_signals env (gpio w) t) want)])
  end.

Definition failed (e : ec_error_list) : bool :=
  match e with EC_SUCCESS => false | _ => true end.

(** ** The module *)

Definition chipset_force_shutdown : M unit :=
  CPRINTS "chipset_force_shutdown()" [] ;;
  (* Force power off. This condition will reset once the state machine
     transitions to G3. *)
  gpio_set_level GPIO_PCH_SYS_PWROK 0 ;;
  gpio_set_level GPIO_PCH_RSMRST_L 0.

Definition chipset_reset (cold_reset : Z) : M unit :=
  CPRINTS "chipset_reset(%d)" [cold_reset] ;;
  if truthy cold_reset then
    (* Ignore if PWROK is already low *)
    l <- gpio_get_level GPIO_PCH_SYS_PWROK ;;
    if l =? 0 then ret tt
    else
      (* PWROK must deassert for at least 3 RTC clocks = 91 us *)
      gpio_set_level GPIO_PCH_SYS_PWROK 0 ;;
      udelay 100 ;;
      gpio_set_level GPIO_PCH_SYS_PWROK 1
  else
    gpio_set_level GPIO_PCH_RCIN_L 0 ;;
    usleep (32 * MSEC) ;;
    gpio_set_level GPIO_PCH_RCIN_L 1.

Definition power_chipset_init : M power_state :=
  j <- system_jumped_to_this_image ;;
  if truthy j then
    sigs <- power_get_signals ;;
    if Z.land sigs IN_ALL_S0 =? IN_ALL_S0 then
      (* Disable idle task deep sleep when in S0. *)
      disable_sleep SLEEP_MASK_AP_RUN ;;
      CPRINTS "already in S0" [] ;;
      ret POWER_S0
    else
      (* Force all signals to their G3 states *)
      CPRINTS "forcing G3" [] ;;
      gpio_set_level GPIO_PCH_CORE_PWROK 0 ;;
      gpio_set_level GPIO_VCORE_EN 0 ;;
      gpio_set_level GPIO_SUSP_VR_EN 0 ;;
      gpio_set_level GPIO_PP1350_EN 0 ;;
      gpio_set_level GPIO_PP3300_DX_EN 0 ;;
      gpio_set_level GPIO_PP5000_EN 0 ;;
      gpio_set_level GPIO_PCH_RSMRST_L 0 ;;
      gpio_set_level GPIO_PCH_SYS_PWROK 0 ;;
      wireless_set_state WIRELESS_OFF ;;
      ret POWER_G3
  else
    ret POWER_G3.

(** The poll loop of the S3->S0 transition:
    [for (i = 0; i < 50; i++) { usleep(MSEC); if (!pltrst) break; }],
    entered with [n = 50 - i] iterations left; the result is the final
    value of [i]. *)
Fixpoint pltrst_poll (n : nat) (i : Z) : M Z :=
  match n with
  | O => ret i
  | S n' =>
      usleep MSEC ;;
      p <- lpc_get_pltrst_asserted ;;
      if p =? 0 then ret i else pltrst_poll n' (i + 1)
  end.

Definition power_handle_state (state : power_state) : M power_state :=
  match state with
  | POWER_G3 => ret state

  | POWER_S5 =>
      l <- gpio_get_level GPIO_PCH_SLP_S4_L ;;
      if l =? 1 then ret POWER_S5S3 (* Power up to next state *)
      else ret state

  | POWER_S3 =>
      (* If lid is closed; hold touchscreen in reset to cut power usage.
         If lid is open, take touchscreen out of reset so it can wake the
         processor. *)
      lid <- lid_is_open ;;
      gpio_set_level GPIO_TOUCHSCREEN_RESET_L lid ;;
      (* Check for state transitions *)
      ok <- power_has_signals IN_PGOOD_S3 ;;
      if negb (truthy ok) then
        (* Required rail went away *)
        chipset_force_shutdown ;;
        ret POWER_S3S5
      else
        s3 <- gpio_get_level GPIO_PCH_SLP_S3_L ;;
        if s3 =? 1 then ret POWER_S3S0 (* Power up to next state *)
        else
          s4 <- gpio_get_level GPIO_PCH_SLP_S4_L ;;
          if s4 =? 0 then ret POWER_S3S5 (* Power down to next state *)
          else ret state

  | POWER_S0 =>
      ok <- power_has_signals IN_PGOOD_S0 ;;
      if negb (truthy ok) then
        (* Required rail went away *)
        chipset_force_shutdown ;;
        ret POWER_S0S3
      else
        s3 <- gpio_get_level GPIO_PCH_SLP_S3_L ;;
        if s3 =? 0 then ret POWER_S0S3 (* Power down to next state *)
        else ret state

  | POWER_G3S5 =>
      (* Wait 10ms after +3VALW good, since that powers VccDSW and
         VccSUS. *)
      msleep 10 ;;
      gpio_set_level GPIO_SUSP_VR_EN 1 ;;
      r <- power_wait_signals IN_PGOOD_S5 ;;
      if failed r then
        gpio_set_level GPIO_SUSP_VR_EN 0 ;;
        chipset_force_shutdown ;;
        ret POWER_G3
      else
        (* Deassert RSMRST# *)
        gpio_set_level GPIO_PCH_RSMRST_L 1 ;;
        (* Wait 10ms for SUSCLK to stabilize *)
        msleep 10 ;;
        ret POWER_S5

  | POWER_S5S3 =>
      (* Wait for the always-on rails to be good *)
      r <- power_wait_signals IN_PGOOD_ALWAYS_ON ;;
      if failed r then
        chipset_force_shutdown ;;
        ret POWER_S5G3
      else
        (* Turn on power to RAM *)
        gpio_set_level GPIO_PP1350_EN 1 ;;
        r' <- power_wait_signals IN_PGOOD_S3 ;;
        if failed r' then
          chipset_force_shutdown ;;
          ret POWER_S5G3
        else
          (* Enable touchpad power so it can wake the system from
             suspend. *)
          gpio_set_level GPIO_ENABLE_TOUCHPAD 1 ;;
          (* Call hooks now that rails are up *)
          hook_notify HOOK_CHIPSET_STARTUP ;;
          ret POWER_S3

  | POWER_S3S0 =>
      (* Turn on power rails *)
      gpio_set_level GPIO_PP5000_EN 1 ;;
      usleep (3 * MSEC) ;;
      gpio_set_level GPIO_PP3300_DX_EN 1 ;;
      (* Enable wireless *)
      wireless_set_state WIRELESS_ON ;;
      (* Make sure touchscreen is out if reset (even if the lid is still
         closed) *)
      gpio_set_level GPIO_TOUCHSCREEN_RESET_L 1 ;;
      (* Wait for non-core power rails good *)
      r <- power_wait_signals IN_PGOOD_S0 ;;
      if failed r then
        chipset_force_shutdown ;;
        wireless_set_state WIRELESS_OFF ;;
        gpio_set_level GPIO_PP3300_DX_EN 0 ;;
        gpio_set_level GPIO_PP5000_EN 0 ;;
        gpio_set_level GPIO_TOUCHSCREEN_RESET_L 0 ;;
        ret POWER_S3
      else
        (* Enable +CPU_CORE. *)
        gpio_set_level GPIO_VCORE_EN 1 ;;
        (* Call hooks now that rails are up *)
        hook_notify HOOK_CHIPSET_RESUME ;;
        (* Disable idle task deep sleep. *)
        disable_sleep SLEEP_MASK_AP_RUN ;;
        (* Wait 15 ms after all voltages good. *)
        msleep 15 ;;
        (* Throttle CPU if necessary. *)
        t <- read throttle_cpu ;;
        gpio_set_level GPIO_CPU_PROCHOT t ;;
        (* Set SYS and CORE PWROK *)
        gpio_set_level GPIO_PCH_SYS_PWROK 1 ;;
        gpio_set_level GPIO_PCH_CORE_PWROK 1 ;;
        (* Wait 50 ms for platform reset to deassert *)
        i <- pltrst_poll 50 0 ;;
        fake <- read fake_pltrst_timeout ;;
        (if (i <? 50) && negb (truthy fake) then
           (* Deasserted in time *)
           CPRINTS "power PLTRST# deasserted" []
         else
           (* Force a reset.  See crosbug.com/p/28422 *)
           CPRINTS "power PLTRST# timeout" [] ;;
           power_button_pch_release ;;
           chipset_force_shutdown ;;
           modify (set_restart_from_s5 1) ;;
           modify (set_fake_pltrst_timeout 0)) ;;
        ret POWER_S0

  | POWER_S0S3 =>
      (* Call hooks before we remove power rails *)
      hook_notify HOOK_CHIPSET_SUSPEND ;;
      (* Clear SYS and CORE PWROK *)
      gpio_set_level GPIO_PCH_SYS_PWROK 0 ;;
      gpio_set_level GPIO_PCH_CORE_PWROK 0 ;;
      (* Wait 40ns *)
      udelay 1 ;;
      (* Disable +CPU_CORE *)
      gpio_set_level GPIO_VCORE_EN 0 ;;
      (* Suspend wireless *)
      wireless_set_state WIRELESS_SUSPEND ;;
      (* Enable idle task deep sleep. *)
      enable_sleep SLEEP_MASK_AP_RUN ;;
      (* Deassert prochot since CPU is off and we're about to drop
         +VCCP. *)
      gpio_set_level GPIO_CPU_PROCHOT 0 ;;
      (* Turn off power rails *)
      msleep 7 ;;
      gpio_set_level GPIO_PP3300_DX_EN 0 ;;
      (if CONFIG_USB_PORT_POWER_IN_S3 b then
         (* Disable the 5V rail if all USB ports are disabled. *)
         en <- usb_charge_ports_enabled ;;
         if negb (truthy en) then gpio_set_level GPIO_PP5000_EN 0
         else ret tt
       else
         gpio_set_level GPIO_PP5000_EN 0) ;;
      ret POWER_S3

  | POWER_S3S5 =>
      (* Call hooks before we remove power rails *)
      hook_notify HOOK_CHIPSET_SHUTDOWN ;;
      (* Turn off 5V rail (if it wasn't turned off in S3) *)
      gpio_set_level GPIO_PP5000_EN 0 ;;
      (* Disable wireless *)
      wireless_set_state WIRELESS_OFF ;;
      (* Disable touchpad power and hold touchscreen in reset *)
      gpio_set_level GPIO_ENABLE_TOUCHPAD 0 ;;
      gpio_set_level GPIO_TOUCHSCREEN_RESET_L 0 ;;
      (* Turn off power to RAM *)
      gpio_set_level GPIO_PP1350_EN 0 ;;
      (* If restarting from S5, delay and fake power button press. *)
      restart <- read restart_from_s5 ;;
      if truthy restart then
        CPRINTS "power restart from S5" [] ;;
        modify (set_restart_from_s5 0) ;;
        (* Delay for system to shut down after rails dropped *)
        msleep 100 ;;
        (* Restart system via power button press *)
        power_button_pch_pulse ;;
        (* Force system to start back up from scratch. *)
        ret POWER_G3S5
      else
        (* Start shutting down *)
        pause <- read pause_in_s5 ;;
        ret (if truthy pause then POWER_S5 else POWER_S5G3)

  | POWER_S5G3 =>
      (* Assert RSMRST# *)
      gpio_set_level GPIO_PCH_RSMRST_L 0 ;;
      gpio_set_level GPIO_SUSP_VR_EN 0 ;;
      ret POWER_G3
  end.

Definition console_command_powerfail (argc : Z) (argv : list string)
  : M ec_error_list :=
  ccprintf "Faking a failure of next power-on event" [] ;;
  modify (set_fake_pltrst_timeout 1) ;;
  ret EC_SUCCESS.

End Machine.

(** ** The pause_in_s5 console command *)

Section Console.

(** [parse_bool(s, &dest)] of the EC's utility code, which is not among
    the sources: it returns 1 and stores 0 or 1 through [dest] when [s]
    reads as a boolean, and returns 0 without storing otherwise. *)
Variable parse_bool : string -> option bool.

(** The call [parse_bool(s, &pause_in_s5)]. *)
Definition parse_bool_pause_in_s5 (s : string) : M Z :=
  match parse_bool s with
  | Some v => modify (set_pause_in_s5 (Z.b2z v)) ;; ret 1
  | None => ret 0
  end.

Definition console_command_gsv (argc : Z) (argv : list string)
  : M ec_error_list :=
  bad <- (if 1 <? argc then
            r <- parse_bool_pause_in_s5 (nth 1 argv EmptyString) ;;
            ret (negb (truthy r))
          else ret false) ;;
  if (bad : bool) then ret EC_ERROR_INVAL
  else
    pause <- read pause_in_s5 ;;
    ccprintf (if truthy pause then "pause_in_s5 = on" else "pause_in_s5 = off")
             [] ;;
    ret EC_SUCCESS.

End Console.

(** ** Vocabulary of the properties *)

(** How far "on" a state is: G3 is fully off and S0 fully on; a
    transition lies between the two steady states it joins. *)
Definition on_level (s : power_state) : Z :=
  match s with
  | POWER_G3 => 0
  | POWER_G3S5 | POWER_S5G3 => 1
  | POWER_S5 => 2
  | POWER_S5S3 | POWER_S3S5 => 3
  | POWER_S3 => 4
  | POWER_S3S0 | POWER_S0S3 => 5
  | POWER_S0 => 6
  end.

(** Where each state goes when a rail fault is detected in it. *)
Definition fault_exit (s : power_state) : power_state :=
  match s with
  | POWER_S3 => POWER_S3S5
  | POWER_S0 => POWER_S0S3
  | POWER_G3S5 => POWER_G3
  | POWER_S5S3 => POWER_S5G3
  | POWER_S3S0 => POWER_S3
  | _ => s
  end.

Definition is_steady (s : power_state) : bool :=
  match s with
  | POWER_G3 | POWER_S5 | POWER_S3 | POWER_S0 => true
  | _ => false
  end.

Definition hook_type_eq_dec (x y : hook_type) : {x = y} + {x <> y}.
Proof. decide equality. Defined.

Definition wireless_state_eq_dec (x y : wireless_state) : {x = y} + {x <> y}.
Proof. decide equality. Defined.

Definition event_eqb (x y : event) : bool :=
  match x, y with
  | EvConsole t a, EvConsole t' a' =>
      String.eqb t t' && (if list_eq_dec Z.eq_dec a a' then true else false)
  | EvGpioSet g v, EvGpioSet g' v' =>
      (if gpio_signal_eq_dec g g' then true else false) && (v =? v')
  | EvSleep u, EvSleep u' => u =? u'
  | EvUdelay u, EvUdelay u' => u =? u'
  | EvHook h, EvHook h' => if hook_type_eq_dec h h' then true else false
  | EvWireless r, EvWireless r' =>
      if wireless_state_eq_dec r r' then true else false
  | EvDisableSleep SLEEP_MASK_AP_RUN, EvDisableSleep SLEEP_MASK_AP_RUN => true
  | EvEnableSleep SLEEP_MASK_AP_RUN, EvEnableSleep SLEEP_MASK_AP_RUN => true
  | EvButtonRelease, EvButtonRelease => true
  | EvButtonPulse, EvButtonPulse => true
  | EvPowerLost a c, EvPowerLost a' c' => (a =? a') && (c =? c')
  | EvPowerTimeout a c, EvPowerTimeout a' c' => (a =? a') && (c =? c')
  | _, _ => false
  end.

Fixpoint prefixb (p l : list event) : bool :=
  match p, l with
  | [], _ => true
  | x :: p', y :: l' => event_eqb x y && prefixb p' l'
  | _ :: _, [] => false
  end.

(** [p] occurs in [l] as a run of consecutive events. *)
Fixpoint infixb (p l : list event) : bool :=
  prefixb p l ||
  match l with
  | [] => false
  | _ :: l' => infixb p l'
  end.

(** A rail fault was detected: [power_has_signals] failed or
    [power_wait_signals] timed out. *)
Definition is_fault (e : event) : bool :=
  match e with
  | EvPowerLost _ _ | EvPowerTimeout _ _ => true
  | _ => false
  end.

Definition fault_detected (evs : list event) : bool := existsb is_fault evs.

(** What a call of [chipset_force_shutdown] leaves in the event list. *)
Definition force_shutdown_events : list event :=
  [EvConsole "chipset_force_shutdown()" [];
   EvGpioSet GPIO_PCH_SYS_PWROK 0;
   EvGpioSet GPIO_PCH_RSMRST_L 0].

Definition calls_force_shutdown (evs : list event) : bool :=
  infixb force_shutdown_events evs.

(** The GPIO writes among the events, in order. *)
Definition gpio_writes (evs : list event) : list (gpio_signal * Z) :=
  flat_map (fun e => match e with
                     | EvGpioSet g v => [(g, v)]
                     | _ => []
                     end) evs.

Definition hooks_fired (evs : list event) : list hook_type :=
  flat_map (fun e => match e with
                     | EvHook h => [h]
                     | _ => []
                     end) evs.

(** Rail or radio actuation: a GPIO write or a wireless state change. *)
Definition is_actuation (e : event) : bool :=
  match e with
  | EvGpioSet _ _ | EvWireless _ => true
  | _ => false
  end.

(** [n] successive calls of [power_handle_state] on the same state,
    collecting the events. *)
Fixpoint repeat_handle_state (b : board) (env : environment) (n : nat)
  (state : power_state) : M power_state :=
  match n with
  | O => ret state
  | S n' =>
      s' <- power_handle_state b env state ;;
      repeat_handle_state b env n' s'
  end.

(** ** Sample boards and environments *)

Definition sample_board : board :=
  {| signal_index := fun s =>
       match s with
       | X86_PGOOD_PP5000 => 0
       | X86_PGOOD_PP1050 => 1
       | X86_PGOOD_S5 => 2
       | X86_PGOOD_VCORE => 3
       | X86_SLP_S3_DEASSERTED => 4
       | X86_SLP_S4_DEASSERTED => 5
       end;
     CONFIG_USB_PORT_POWER_IN_S3 := false |}.

(** An environment whose inputs do not change: signal mask [sigs], both
    sleep lines at [slp], every other pin low, platform reset at
    [pltrst]. *)
Definition steady_env (sigs slp pltrst jumped : Z) : environment :=
  {| in_signals := fun _ _ => sigs;
     pin_level := fun g _ =>
       match g with
       | GPIO_PCH_SLP_S3_L | GPIO_PCH_SLP_S4_L => slp
       | _ => 0
       end;
     lid_open := fun _ => 1;
     pltrst_asserted := fun _ => pltrst;
     usb_ports_enabled := fun _ => 0;
     jumped_to_this_image := jumped;
     wait_timeout := 20 |}.

(** Everything low, defaults of the static variables, time 0. *)
Definition initial_world : world :=
  {| gpio := fun _ => 0;
     throttle_cpu := 0;
     pause_in_s5 := 1;
     restart_from_s5 := 0;
     fake_pltrst_timeout := 0;
     now := 0 |}.

(** A [parse_bool] that knows two words. *)
Definition parse_on_off (s : string) : option bool :=
  if String.eqb s "on" then Some true
  else if String.eqb s "off" then Some false
  else None.

(** An environment in which turning the RAM rail on pulls the always-on
    rail down: the mask is [sigs] while PP1350_EN is driven low and
    loses the S5 power-good of the sample board (bit 2) while it is
    driven high. *)
Definition ram_load_env (sigs : Z) : environment :=
  {| in_signals := fun lines _ =>
       if lines GPIO_PP1350_EN =? 0 then sigs else Z.land sigs (Z.lnot 4);
     pin_level := fun g _ =>
       match g with
       | GPIO_PCH_SLP_S3_L | GPIO_PCH_SLP_S4_L => 1
       | _ => 0
       end;
     lid_open := fun _ => 1;
     pltrst_asserted := fun _ => 0;
     usb_ports_enabled := fun _ => 0;
     jumped_to_this_image := 0;
     wait_timeout := 20 |}.

(** The GPIO levels at the moments a script looks at the rails: in S3
    after the touchscreen reset has been set from the lid, in G3->S5
    with the suspend regulator enabled, in S5->S3 with the RAM rail
    enabled (second wait), in S3->S0 with the non-core rails enabled. *)
Definition lines_in_S3 (env : environment) (w : world) : gpio_signal -> Z :=
  gpio (set_gpio GPIO_TOUCHSCREEN_RESET_L (lid_open env (now w)) w).

Definition lines_in_G3S5 (w : world) : gpio_signal -> Z :=
  gpio (set_gpio GPIO_SUSP_VR_EN 1 w).

Definition lines_in_S5S3 (w : world) : gpio_signal -> Z :=
  gpio (set_gpio GPIO_PP1350_EN 1 w).

Definition lines_in_S3S0 (w : world) : gpio_signal -> Z :=
  gpio (set_gpio GPIO_TOUCHSCREEN_RESET_L 1
          (set_gpio GPIO_PP3300_DX_EN 1 (set_gpio GPIO_PP5000_EN 1 w))).

(** The conditions of the transition table: whether some way out of
    [s] is open in world [w].  A transitional state always moves on. *)
Definition outgoing_condition (b : board) (env : environment)
  (s : power_state) (w : world) : bool :=
  let pin g := pin_level env g (now w) in
  match s with
  | POWER_G3 => false
  | POWER_S5 => pin GPIO_PCH_SLP_S4_L =? 1
  | POWER_S3 =>
      negb (has_all (in_signals env (lines_in_S3 env w) (now w))
              (IN_PGOOD_S3 b))
      || (pin GPIO_PCH_SLP_S3_L =? 1) || (pin GPIO_PCH_SLP_S4_L =? 0)
  | POWER_S0 =>
      negb (has_all (in_signals env (gpio w) (now w)) (IN_PGOOD_S0 b))
      || (pin GPIO_PCH_SLP_S3_L =? 0)
  | _ => true
  end.

Definition all_power_states : list power_state :=
  [POWER_G3; POWER_S5; POWER_S3; POWER_S0; POWER_G3S5; POWER_S5S3;
   POWER_S3S0; POWER_S0S3; POWER_S3S5; POWER_S5G3].

(** The longest one call of [power_handle_state] can take, in
    microseconds: the fixed delays of a script add up to at most 100 ms
    and no script waits for signals more than twice. *)
Definition max_call_time (env : environment) : Z :=
  100 * MSEC + 2 * Z.of_nat (wait_timeout env).

(** Whether a call in state [s] from world [w] runs into a rail fault:
    in S3 and S0 the required rails are not all good; in a transition
    one of its waits for rails times out. *)
Definition rail_fault (b : board) (env : environment)
  (s : power_state) (w : world) : bool :=
  let timed_out want lines t :=
    match wait_all env want lines t (wait_timeout env) with
    | None => true
    | Some _ => false
    end in
  match s with
  | POWER_S3 =>
      negb (has_all (in_signals env (lines_in_S3 env w) (now w))
              (IN_PGOOD_S3 b))
  | POWER_S0 =>
      negb (has_all (in_signals env (gpio w) (now w)) (IN_PGOOD_S0 b))
  | POWER_G3S5 =>
      timed_out (IN_PGOOD_S5 b) (lines_in_G3S5 w) (now w + 10 * MSEC)
  | POWER_S5S3 =>
      match wait_all env (IN_PGOOD_ALWAYS_ON b) (gpio w) (now w)
              (wait_timeout env) with
      | None => true
      | Some t => timed_out (IN_PGOOD_S3 b) (lines_in_S5S3 w) t
      end
  | POWER_S3S0 =>
      timed_out (IN_PGOOD_S0 b) (lines_in_S3S0 w) (now w + 3 * MSEC)
  | _ => false
  end.

(** A world with every line driven high. *)
Definition powered_world : world :=
  {| gpio := fun _ => 1;
     throttle_cpu := 0;
     pause_in_s5 := 1;
     restart_from_s5 := 0;
     fake_pltrst_timeout := 0;
     now := 0 |}.

(** ** The rest of the chipset module *)

(** [struct ec_params_get_set_value]: two [uint32_t] fields. *)
Record ec_params_get_set_value : Type := {
  gsv_flags : Z;
  gsv_value : Z
}.

(** What a host command handler leaves behind: [r->value] and
    [args->response_size]. *)
Record host_response : Type := {
  r_value : Z;
  response_size : Z
}.

Inductive ec_status : Type :=
| EC_RES_SUCCESS.

(** Conversions between [uint32_t] and [int] (two's complement). *)
Definition to_uint32 (z : Z) : Z := z mod 2 ^ 32.

Definition to_int32 (z : Z) : Z :=
  if z mod 2 ^ 32 <? 2 ^ 31 then z mod 2 ^ 32 else z mod 2 ^ 32 - 2 ^ 32.

Section HostCommand.

(** From ec_commands.h, which is not among the sources: the "set" flag
    bit and the size of the response structure. *)
Variable EC_GSV_SET : Z.
Variable sizeof_response : Z.

Definition host_command_gsv (p : ec_params_get_set_value)
  : M (ec_status * host_response) :=
  (if truthy (Z.land (gsv_flags p) EC_GSV_SET)
   then modify (set_pause_in_s5 (to_int32 (gsv_value p)))
   else ret tt) ;;
  v <- read pause_in_s5 ;;
  ret (EC_RES_SUCCESS,
       {| r_value := to_uint32 v; response_size := sizeof_response |}).

End HostCommand.

(** [chipset_throttle_cpu]; [in_on] is what
    [chipset_in_state(CHIPSET_STATE_ON)] of the common power code, which
    is not among the sources, returns at the call. *)
Definition chipset_throttle_cpu (in_on : Z) (throttle : Z) : M unit :=
  if truthy in_on then gpio_set_level GPIO_CPU_PROCHOT throttle
  else ret tt.

(** ** Runs of the module *)

(** One call into the module from outside: the power task, the host, the
    console, or another subsystem. *)
Inductive module_call : Type :=
| CallForceShutdown
| CallReset (cold_reset : Z)
| CallThrottle (in_on throttle : Z)
| CallInit
| CallHandleState (s : power_state)
| CallHostGsv (p : ec_params_get_set_value)
| CallConsoleGsv (argc : Z) (argv : list string)
| CallPowerfail (argc : Z) (argv : list string).

Section Runs.

Variable b : board.
Variable env : environment.
Variable parse_bool : string -> option bool.
Variable EC_GSV_SET : Z.
Variable sizeof_response : Z.

Definition run_call (c : module_call) : M unit :=
  match c with
  | CallForceShutdown => chipset_force_shutdown
  | CallReset cold => chipset_reset env cold
  | CallThrottle in_on t => chipset_throttle_cpu in_on t
  | CallInit => power_chipset_init b env ;; ret tt
  | CallHandleState s => power_handle_state b env s ;; ret tt
  | CallHostGsv p => host_command_gsv EC_GSV_SET sizeof_response p ;; ret tt
  | CallConsoleGsv argc argv => console_command_gsv parse_bool argc argv ;; ret tt
  | CallPowerfail argc argv => console_command_powerfail argc argv ;; ret tt
  end.

Fixpoint run_calls (cs : list module_call) : M unit :=
  match cs with
  | [] => ret tt
  | c :: cs' => run_call c ;; run_calls cs'
  end.

End Runs.

(** The states a call in [s] may return, from the switch. *)
Definition successors (s : power_state) : list power_state :=
  match s with
  | POWER_G3 => [POWER_G3]
  | POWER_S5 => [POWER_S5; POWER_S5S3]
  | POWER_S3 => [POWER_S3; POWER_S3S0; POWER_S3S5]
  | POWER_S0 => [POWER_S0; POWER_S0S3]
  | POWER_G3S5 => [POWER_S5; POWER_G3]
  | POWER_S5S3 => [POWER_S3; POWER_S5G3]
  | POWER_S3S0 => [POWER_S0; POWER_S3]
  | POWER_S0S3 => [POWER_S3]
  | POWER_S3S5 => [POWER_G3S5; POWER_S5; POWER_S5G3]
  | POWER_S5G3 => [POWER_G3]
  end.

(** The hook a finished transition announces. *)
Definition hook_of_transition (s s' : power_state) : list hook_type :=
  match s, s' with
  | POWER_S5S3, POWER_S3 => [HOOK_CHIPSET_STARTUP]
  | POWER_S3S0, POWER_S0 => [HOOK_CHIPSET_RESUME]
  | POWER_S0S3, _ => [HOOK_CHIPSET_SUSPEND]
  | POWER_S3S5, _ => [HOOK_CHIPSET_SHUTDOWN]
  | _, _ => []
  end.

(** The level a line ends at after the writes [ws], starting from [v]. *)
Fixpoint level_after (g : gpio_signal) (ws : list (gpio_signal * Z)) (v : Z)
  : Z :=
  match ws with
  | [] => v
  | (g', v') :: ws' =>
      level_after g ws' (if gpio_signal_eq_dec g' g then v' else v)
  end.

Definition is_delay (e : event) : bool :=
  match e with
  | EvSleep _ | EvUdelay _ => true
  | _ => false
  end.

(** A computation keeps the event list and the GPIO levels in step: the
    level each line ends at is the one its writes in the event list give. *)
Definition gpio_tracked {A} (m : M A) : Prop :=
  forall (w : world) (g : gpio_signal),
    gpio (world_of (m w)) g
    = level_after g (gpio_writes (events_of (m w))) (gpio w g).

(** The power button actions among the events, in order. *)
Definition button_events (evs : list event) : list event :=
  filter (fun e => match e with
                   | EvButtonRelease | EvButtonPulse => true
                   | _ => false
                   end) evs.

(** The wireless state changes among the events, in order. *)
Definition wireless_events (evs : list event) : list wireless_state :=
  flat_map (fun e => match e with
                     | EvWireless r => [r]
                     | _ => []
                     end) evs.

(** ** The IT83xx GPIO level functions (chip/it83xx/gpio.c)

    One implementation of the [gpio_get_level] and [gpio_set_level] the
    chipset module calls.  The data registers [IT83XX_GPIO_DATA(port)]
    are 8 bits wide; [gpio_list], the board's table, gives each signal
    its port and mask. *)
Module It83xxGpio.

(** The fields of [struct gpio_info] the level functions use. *)
Record gpio_info : Type := {
  port : Z;
  mask : Z
}.

(** The data registers, by port. *)
Definition data_regs : Type := Z -> Z.

(** Truncation to an 8-bit register. *)
Definition u8 (z : Z) : Z := Z.land z 255.

(** [~z] on a [uint32_t]. *)
Definition not32 (z : Z) : Z := Z.lxor z 4294967295.

Section Driver.

Variable signal : Type.
Variable gpio_list : signal -> gpio_info.

Definition gpio_get_level (s : signal) (data : data_regs) : Z :=
  if Z.land (data (port (gpio_list s))) (mask (gpio_list s)) =? 0
  then 0 else 1.

Definition gpio_set_level (s : signal) (value : Z) (data : data_regs)
  : data_regs :=
  fun p =>
    if p =? port (gpio_list s) then
      if truthy value
      then u8 (Z.lor (data p) (mask (gpio_list s)))
      else u8 (Z.land (data p) (not32 (mask (gpio_list s))))
    else data p.

End Driver.

(** Every data register holds an 8-bit value. *)
Definition regs_ok (data : data_regs) : Prop :=
  forall p, 0 <= data p < 256.

End It83xxGpio.

(** Two pins of one port, for examples. *)
Definition sample_gpio_list (s : bool) : It83xxGpio.gpio_info :=
  if s then {| It83xxGpio.port := 3; It83xxGpio.mask := 1 |}
  else {| It83xxGpio.port := 3; It83xxGpio.mask := 2 |}.

(** An environment for a failed power-on: the rails report good, the
    platform reset line stays asserted, and the two sleep lines read
    high up to 68 ms and low from then on, as when the PCH is forced
    off at that time. *)
Definition recovery_env : environment :=
  {| in_signals := fun _ _ => 61;
     pin_level := fun g t =>
       match g with
       | GPIO_PCH_SLP_S3_L | GPIO_PCH_SLP_S4_L =>
           if t <? 68000 then 1 else 0
       | _ => 0
       end;
     lid_open := fun _ => 1;
     pltrst_asserted := fun _ => 1;
     usb_ports_enabled := fun _ => 0;
     jumped_to_this_image := 0;
     wait_timeout := 20 |}.

(** * Properties *)

Ltac unfold_m :=
  cbv [bind ret emit read modify gpio_set_level gpio_get_level
       usleep msleep udelay hook_notify wireless_set_state
       disable_sleep enable_sleep power_button_pch_release
       power_button_pch_pulse lid_is_open lpc_get_pltrst_asserted
       usb_charge_ports_enabled system_jumped_to_this_image
       power_get_signals chipset_force_shutdown CPRINTS ccprintf
       result_of world_of events_of fst snd].

(** ** Setters and projections *)

Lemma set_gpio_same g v w : gpio (set_gpio g v w) g = v.
Proof.
  unfold set_gpio; simpl.
  destruct (gpio_signal_eq_dec g g); [reflexivity | contradiction].
Qed.

Lemma set_gpio_other g g' v w : g <> g' -> gpio (set_gpio g v w) g' = gpio w g'.
Proof.
  intros Hne. unfold set_gpio; simpl.
  destruct (gpio_signal_eq_dec g g'); [contradiction | reflexivity].
Qed.

Lemma truthy_true z : truthy z = true <-> z <> 0.
Proof.
  unfold truthy. destruct (Z.eqb_spec z 0); simpl; split; intros; congruence.
Qed.

Lemma truthy_false z : truthy z = false <-> z = 0.
Proof.
  unfold truthy. destruct (Z.eqb_spec z 0); simpl; split; intros; congruence.
Qed.

(** ** chipset_force_shutdown *)

(** C7, as amended: [chipset_force_shutdown] performs exactly two GPIO
    writes, PCH SYS PWROK to 0 and then PCH RSMRST# to 0 (not CORE
    PWROK); the resulting world is the old one with those two lines
    updated, so no other line, no static variable and not the clock is
    touched; besides the writes it only logs its name. *)
Theorem chipset_force_shutdown_writes (w : world) :
  gpio_writes (events_of (chipset_force_shutdown w))
    = [(GPIO_PCH_SYS_PWROK, 0); (GPIO_PCH_RSMRST_L, 0)]
  /\ events_of (chipset_force_shutdown w) = force_shutdown_events
  /\ world_of (chipset_force_shutdown w)
     = set_gpio GPIO_PCH_RSMRST_L 0 (set_gpio GPIO_PCH_SYS_PWROK 0 w)
  /\ gpio (world_of (chipset_force_shutdown w)) GPIO_PCH_CORE_PWROK
     = gpio w GPIO_PCH_CORE_PWROK
  /\ (forall g, g <> GPIO_PCH_SYS_PWROK -> g <> GPIO_PCH_RSMRST_L ->
       gpio (world_of (chipset_force_shutdown w)) g = gpio w g)
  /\ throttle_cpu (world_of (chipset_force_shutdown w)) = throttle_cpu w
  /\ pause_in_s5 (world_of (chipset_force_shutdown w)) = pause_in_s5 w
  /\ restart_from_s5 (world_of (chipset_force_shutdown w)) = restart_from_s5 w
  /\ fake_pltrst_timeout (world_of (chipset_force_shutdown w))
     = fake_pltrst_timeout w.
Proof.
  repeat split.
  intros g Hsys Hrsm. cbv [chipset_force_shutdown world_of fst snd bind
    gpio_set_level CPRINTS emit modify].
  rewrite !set_gpio_other by congruence. reflexivity.
Qed.

Lemma chipset_force_shutdown_writes_witness :
  gpio (world_of (chipset_force_shutdown powered_world)) GPIO_VCORE_EN
  = gpio powered_world GPIO_VCORE_EN.
Proof.
  apply (chipset_force_shutdown_writes powered_world); discriminate.
Defined.

(** C7, as stated, fails: on a world with every line high the writes are
    not "SYS PWROK and CORE PWROK to 0"; CORE PWROK stays high and the
    RSMRST# line, which the claim says is left alone, goes low. *)
Lemma chipset_force_shutdown_not_core_pwrok :
  gpio_writes (events_of (chipset_force_shutdown powered_world))
    <> [(GPIO_PCH_SYS_PWROK, 0); (GPIO_PCH_CORE_PWROK, 0)]
  /\ gpio (world_of (chipset_force_shutdown powered_world))
          GPIO_PCH_CORE_PWROK = 1
  /\ gpio powered_world GPIO_PCH_RSMRST_L = 1
  /\ gpio (world_of (chipset_force_shutdown powered_world))
          GPIO_PCH_RSMRST_L = 0.
Proof.
  repeat split. vm_compute. discriminate.
Qed.

(** ** Idempotence at G3 *)

(** C8: any number of successive [power_handle_state] calls starting in
    G3, under any environment (hence any signal mask), stays in G3,
    leaves the world (GPIO levels, the four static flags, the clock)
    exactly as it was, and performs no action at all. *)
Theorem power_handle_state_G3_idempotent
  (b : board) (env : environment) (n : nat) (w : world) :
  repeat_handle_state b env n POWER_G3 w = (POWER_G3, w, []).
Proof.
  induction n as [|n IH]; simpl.
  - reflexivity.
  - unfold bind. simpl. rewrite IH. reflexivity.
Qed.

(** ** chipset_reset *)

(** C10: a cold reset requested while PCH SYS PWROK reads low only logs
    the call, with no GPIO write and the world unchanged; while it reads
    high the line is driven to 0, held for 100 us and driven back to 1;
    a warm reset always drives RCIN# to 0, sleeps 32 ms and drives it
    back to 1. *)
Theorem chipset_reset_cases (env : environment) (cold_reset : Z) (w : world) :
  (cold_reset <> 0 -> pin_level env GPIO_PCH_SYS_PWROK (now w) = 0 ->
     chipset_reset env cold_reset w
       = (tt, w, [EvConsole "chipset_reset(%d)" [cold_reset]])
     /\ gpio_writes (events_of (chipset_reset env cold_reset w)) = [])
  /\ (cold_reset <> 0 -> pin_level env GPIO_PCH_SYS_PWROK (now w) <> 0 ->
     events_of (chipset_reset env cold_reset w)
       = [EvConsole "chipset_reset(%d)" [cold_reset];
          EvGpioSet GPIO_PCH_SYS_PWROK 0; EvUdelay 100;
          EvGpioSet GPIO_PCH_SYS_PWROK 1]
     /\ gpio (world_of (chipset_reset env cold_reset w)) GPIO_PCH_SYS_PWROK = 1
     /\ now (world_of (chipset_reset env cold_reset w)) = now w + 100)
  /\ (cold_reset = 0 ->
     events_of (chipset_reset env cold_reset w)
       = [EvConsole "chipset_reset(%d)" [0];
          EvGpioSet GPIO_PCH_RCIN_L 0; EvSleep 32000;
          EvGpioSet GPIO_PCH_RCIN_L 1]
     /\ gpio (world_of (chipset_reset env cold_reset w)) GPIO_PCH_RCIN_L = 1
     /\ now (world_of (chipset_reset env cold_reset w)) = now w + 32000).
Proof.
  split; [|split].
  - intros Hc Hp. apply truthy_true in Hc.
    unfold chipset_reset. unfold_m. rewrite Hc, Hp. simpl. split; reflexivity.
  - intros Hc Hp. apply truthy_true in Hc. apply Z.eqb_neq in Hp.
    unfold chipset_reset. unfold_m. rewrite Hc, Hp. simpl.
    repeat split.
  - intros ->. repeat split.
Qed.

Lemma chipset_reset_cases_witness :
  chipset_reset (steady_env 0 0 0 0) 1 initial_world
    = (tt, initial_world, [EvConsole "chipset_reset(%d)" [1]])
  /\ gpio_writes (events_of (chipset_reset (steady_env 0 0 0 0) 1 initial_world))
     = [].
Proof.
  apply (chipset_reset_cases (steady_env 0 0 0 0) 1 initial_world).
  - discriminate.
  - reflexivity.
Defined.

(** ** The S3->S5 transition *)

(** C6: in the S3->S5 transition [restart_from_s5] is looked at first.
    If it is set, whatever [pause_in_s5] holds, the flag is cleared, the
    task sleeps 100 ms, the power button is pulsed (in that order, after
    the rails are dropped) and the result is POWER_G3S5.  Otherwise the
    result is POWER_S5 when [pause_in_s5] is set and POWER_S5G3 when it
    is clear, with no delay and no button pulse. *)
Theorem S3S5_exit (b : board) (env : environment) (w : world) :
  (restart_from_s5 w <> 0 ->
     result_of (power_handle_state b env POWER_S3S5 w) = POWER_G3S5
     /\ restart_from_s5 (world_of (power_handle_state b env POWER_S3S5 w)) = 0
     /\ pause_in_s5 (world_of (power_handle_state b env POWER_S3S5 w))
        = pause_in_s5 w
     /\ now (world_of (power_handle_state b env POWER_S3S5 w)) = now w + 100000
     /\ events_of (power_handle_state b env POWER_S3S5 w)
        = [EvHook HOOK_CHIPSET_SHUTDOWN; EvGpioSet GPIO_PP5000_EN 0;
           EvWireless WIRELESS_OFF; EvGpioSet GPIO_ENABLE_TOUCHPAD 0;
           EvGpioSet GPIO_TOUCHSCREEN_RESET_L 0; EvGpioSet GPIO_PP1350_EN 0;
           EvConsole "power restart from S5" []; EvSleep 100000;
           EvButtonPulse])
  /\ (restart_from_s5 w = 0 ->
     result_of (power_handle_state b env POWER_S3S5 w)
       = (if truthy (pause_in_s5 w) then POWER_S5 else POWER_S5G3)
     /\ restart_from_s5 (world_of (power_handle_state b env POWER_S3S5 w)) = 0
     /\ now (world_of (power_handle_state b env POWER_S3S5 w)) = now w
     /\ events_of (power_handle_state b env POWER_S3S5 w)
        = [EvHook HOOK_CHIPSET_SHUTDOWN; EvGpioSet GPIO_PP5000_EN 0;
           EvWireless WIRELESS_OFF; EvGpioSet GPIO_ENABLE_TOUCHPAD 0;
           EvGpioSet GPIO_TOUCHSCREEN_RESET_L 0; EvGpioSet GPIO_PP1350_EN 0]).
Proof.
  split; intros Hr.
  - apply truthy_true in Hr.
    unfold power_handle_state. unfold_m. simpl. rewrite Hr. simpl.
    repeat split.
  - assert (Ht : truthy (restart_from_s5 w) = false) by (apply truthy_false; exact Hr).
    unfold power_handle_state. unfold_m. simpl. rewrite Ht. simpl.
    repeat split. exact Hr.
Qed.

Lemma S3S5_exit_witness :
  result_of (power_handle_state sample_board (steady_env 0 0 0 0) POWER_S3S5
               (set_restart_from_s5 1 initial_world)) = POWER_G3S5
  /\ result_of (power_handle_state sample_board (steady_env 0 0 0 0) POWER_S3S5
               initial_world) = POWER_S5
  /\ result_of (power_handle_state sample_board (steady_env 0 0 0 0) POWER_S3S5
               (set_pause_in_s5 0 initial_world)) = POWER_S5G3.
Proof.
  split; [|split].
  - apply (S3S5_exit sample_board (steady_env 0 0 0 0)
             (set_restart_from_s5 1 initial_world)).
    simpl. discriminate.
  - apply (proj2 (S3S5_exit sample_board (steady_env 0 0 0 0) initial_world)).
    reflexivity.
  - apply (proj2 (S3S5_exit sample_board (steady_env 0 0 0 0)
                    (set_pause_in_s5 0 initial_world))).
    reflexivity.
Defined.

(** ** power_chipset_init *)

(** [(mask & required) == required] says that every bit of [required]
    is set in [mask]. *)
Lemma land_eq_iff_bits (mask required : Z) :
  Z.land mask required = required
  <-> (forall n, Z.testbit required n = true -> Z.testbit mask n = true).
Proof.
  split.
  - intros H n Hn. rewrite <- H in Hn. rewrite Z.land_spec in Hn.
    apply andb_true_iff in Hn. tauto.
  - intros H. apply Z.bits_inj'. intros n _. rewrite Z.land_spec.
    destruct (Z.testbit required n) eqn:E.
    + rewrite (H n E). reflexivity.
    + apply andb_false_r.
Qed.

Lemma has_all_iff_bits (mask required : Z) :
  has_all mask required = true
  <-> (forall n, Z.testbit required n = true -> Z.testbit mask n = true).
Proof.
  unfold has_all. rewrite Z.eqb_eq. apply land_eq_iff_bits.
Qed.

(** C5: [power_chipset_init] returns POWER_S0 exactly when the image was
    jumped to and the live mask has every bit of IN_ALL_S0; it then only
    disables deep sleep and logs: no GPIO write, no wireless change, no
    hook.  Jumped with a mask that does not match, it writes 0 to the
    eight rail and reset lines, so that each of them is at 0 afterwards
    whatever it was before and nothing else of the world changes, turns
    wireless off and returns POWER_G3.  Not jumped, it returns POWER_G3
    and does nothing. *)
Theorem power_chipset_init_cases (b : board) (env : environment) (w : world) :
  (result_of (power_chipset_init b env w) = POWER_S0
   <-> jumped_to_this_image env <> 0
       /\ forall n, Z.testbit (IN_ALL_S0 b) n = true ->
                    Z.testbit (in_signals env (gpio w) (now w)) n = true)
  /\ (result_of (power_chipset_init b env w) = POWER_S0 ->
      power_chipset_init b env w
      = (POWER_S0, w, [EvDisableSleep SLEEP_MASK_AP_RUN;
                       EvConsole "already in S0" []]))
  /\ (jumped_to_this_image env <> 0 ->
      result_of (power_chipset_init b env w) <> POWER_S0 ->
      result_of (power_chipset_init b env w) = POWER_G3
      /\ events_of (power_chipset_init b env w)
         = [EvConsole "forcing G3" [];
            EvGpioSet GPIO_PCH_CORE_PWROK 0; EvGpioSet GPIO_VCORE_EN 0;
            EvGpioSet GPIO_SUSP_VR_EN 0; EvGpioSet GPIO_PP1350_EN 0;
            EvGpioSet GPIO_PP3300_DX_EN 0; EvGpioSet GPIO_PP5000_EN 0;
            EvGpioSet GPIO_PCH_RSMRST_L 0; EvGpioSet GPIO_PCH_SYS_PWROK 0;
            EvWireless WIRELESS_OFF]
      /\ world_of (power_chipset_init b env w)
         = set_gpio GPIO_PCH_SYS_PWROK 0
             (set_gpio GPIO_PCH_RSMRST_L 0
                (set_gpio GPIO_PP5000_EN 0
                   (set_gpio GPIO_PP3300_DX_EN 0
                      (set_gpio GPIO_PP1350_EN 0
                         (set_gpio GPIO_SUSP_VR_EN 0
                            (set_gpio GPIO_VCORE_EN 0
                               (set_gpio GPIO_PCH_CORE_PWROK 0 w)))))))
      /\ map (gpio (world_of (power_chipset_init b env w)))
           [GPIO_PCH_CORE_PWROK; GPIO_VCORE_EN; GPIO_SUSP_VR_EN;
            GPIO_PP1350_EN; GPIO_PP3300_DX_EN; GPIO_PP5000_EN;
            GPIO_PCH_RSMRST_L; GPIO_PCH_SYS_PWROK]
         = [0; 0; 0; 0; 0; 0; 0; 0]
      /\ map (gpio (world_of (power_chipset_init b env w)))
           [GPIO_PCH_RCIN_L; GPIO_PCH_SLP_S3_L; GPIO_PCH_SLP_S4_L;
            GPIO_CPU_PROCHOT; GPIO_TOUCHSCREEN_RESET_L; GPIO_ENABLE_TOUCHPAD]
         = map (gpio w)
             [GPIO_PCH_RCIN_L; GPIO_PCH_SLP_S3_L; GPIO_PCH_SLP_S4_L;
              GPIO_CPU_PROCHOT; GPIO_TOUCHSCREEN_RESET_L;
              GPIO_ENABLE_TOUCHPAD])
  /\ (jumped_to_this_image env = 0 ->
      power_chipset_init b env w = (POWER_G3, w, [])).
Proof.
  unfold power_chipset_init. unfold_m.
  destruct (truthy (jumped_to_this_image env)) eqn:Hj.
  - pose proof (proj1 (truthy_true _) Hj) as Hj'.
    destruct (Z.eqb_spec
                (Z.land (in_signals env (gpio w) (now w)) (IN_ALL_S0 b))
                (IN_ALL_S0 b)) as [He | He].
    + repeat split; try congruence.
      * apply land_eq_iff_bits. exact He.
    + split; [| split; [| split]].
      * split; [discriminate |].
        intros [_ Hb]. apply land_eq_iff_bits in Hb. contradiction.
      * discriminate.
      * intros _ _. repeat split.
      * congruence.
  - pose proof (proj1 (truthy_false _) Hj) as Hj'.
    repeat split; try congruence; try discriminate.
    intros [Hn _]. contradiction.
Qed.

Lemma power_chipset_init_cases_witness :
  result_of (power_chipset_init sample_board (steady_env 61 1 0 1) initial_world)
    = POWER_S0
  /\ power_chipset_init sample_board (steady_env 61 1 0 1) initial_world
     = (POWER_S0, initial_world,
        [EvDisableSleep SLEEP_MASK_AP_RUN; EvConsole "already in S0" []])
  /\ result_of (power_chipset_init sample_board (steady_env 53 1 0 1)
                  powered_world) = POWER_G3
  /\ map (gpio (world_of (power_chipset_init sample_board (steady_env 53 1 0 1)
                            powered_world)))
       [GPIO_PCH_CORE_PWROK; GPIO_VCORE_EN; GPIO_SUSP_VR_EN;
        GPIO_PP1350_EN; GPIO_PP3300_DX_EN; GPIO_PP5000_EN;
        GPIO_PCH_RSMRST_L; GPIO_PCH_SYS_PWROK]
     = [0; 0; 0; 0; 0; 0; 0; 0].
Proof.
  pose proof (power_chipset_init_cases sample_board (steady_env 61 1 0 1)
                initial_world) as [Hiff [Hquiet _]].
  assert (H0 : result_of (power_chipset_init sample_board (steady_env 61 1 0 1)
                            initial_world) = POWER_S0).
  { apply Hiff. split.
    - cbn [jumped_to_this_image steady_env]. discriminate.
    - intros n Hn. exact Hn. }
  split; [exact H0 | split; [exact (Hquiet H0) |]].
  pose proof (power_chipset_init_cases sample_board (steady_env 53 1 0 1)
                powered_world) as [_ [_ [Hforce _]]].
  destruct Hforce as [Hres [_ [_ [Hlines _]]]].
  - cbn [jumped_to_this_image steady_env]. discriminate.
  - vm_compute. discriminate.
  - split; [exact Hres | exact Hlines].
Defined.

(** ** The pause_in_s5 console command *)

(** C9: with an argument present, [console_command_gsv] returns
    EC_ERROR_INVAL, prints nothing and leaves the whole world (so
    [pause_in_s5] too) as it was when [parse_bool] rejects the argument;
    when [parse_bool] accepts it as [v], [pause_in_s5] becomes [v], the
    new value is printed and EC_SUCCESS is returned. *)
Theorem console_command_gsv_cases
  (parse_bool : string -> option bool) (argc : Z) (argv : list string)
  (s : string) (w : world) :
  1 < argc -> nth_error argv 1 = Some s ->
  (parse_bool s = None ->
     console_command_gsv parse_bool argc argv w = (EC_ERROR_INVAL, w, []))
  /\ (forall v, parse_bool s = Some v ->
     result_of (console_command_gsv parse_bool argc argv w) = EC_SUCCESS
     /\ world_of (console_command_gsv parse_bool argc argv w)
        = set_pause_in_s5 (Z.b2z v) w
     /\ pause_in_s5 (world_of (console_command_gsv parse_bool argc argv w))
        = Z.b2z v
     /\ events_of (console_command_gsv parse_bool argc argv w)
        = [EvConsole (if v then "pause_in_s5 = on" else "pause_in_s5 = off")
             []]).
Proof.
  intros Hargc Hnth.
  assert (Hs : nth 1 argv EmptyString = s).
  { destruct argv as [|a0 [|a1 rest]]; simpl in Hnth; try discriminate.
    simpl. congruence. }
  apply Z.ltb_lt in Hargc.
  unfold console_command_gsv, parse_bool_pause_in_s5. rewrite Hargc, Hs.
  split.
  - intros Hp. rewrite Hp. reflexivity.
  - intros v Hp. rewrite Hp. destruct v; repeat split.
Qed.

Lemma console_command_gsv_cases_witness :
  console_command_gsv parse_on_off 2 ["pause_in_s5"; "maybe"]%string
    initial_world = (EC_ERROR_INVAL, initial_world, [])
  /\ pause_in_s5 (world_of (console_command_gsv parse_on_off 2
                              ["pause_in_s5"; "off"]%string initial_world)) = 0.
Proof.
  split.
  - apply (console_command_gsv_cases parse_on_off 2
             ["pause_in_s5"; "maybe"]%string "maybe"%string initial_world);
      [lia | reflexivity | reflexivity].
  - apply (proj2 (console_command_gsv_cases parse_on_off 2
             ["pause_in_s5"; "off"]%string "off"%string initial_world
             ltac:(lia) eq_refl) false).
    reflexivity.
Defined.

(** ** Waiting and polling are bounded *)

Section Bounded.

Variable env : environment.

Lemma wait_all_bounds (want : Z) (lines : gpio_signal -> Z) (fuel : nat) :
  forall t t',
  wait_all env want lines t fuel = Some t' ->
  t <= t' <= t + Z.of_nat fuel
  /\ has_all (in_signals env lines t') want = true.
Proof.
  induction fuel as [|fuel IH]; intros t t'; simpl;
    destruct (has_all (in_signals env lines t) want) eqn:E; intros H.
  - injection H as <-. split; [lia | exact E].
  - discriminate.
  - injection H as <-. split; [lia | exact E].
  - apply IH in H. destruct H as [Hb Hs]. split; [lia | exact Hs].
Qed.

Lemma wait_all_none (want : Z) (lines : gpio_signal -> Z) (fuel : nat) :
  forall t,
  wait_all env want lines t fuel = None ->
  forall k, 0 <= k <= Z.of_nat fuel ->
            has_all (in_signals env lines (t + k)) want = false.
Proof.
  induction fuel as [|fuel IH]; intros t; simpl;
    destruct (has_all (in_signals env lines t) want) eqn:E; intros H k Hk;
    try discriminate.
  - replace (t + k) with t by lia. exact E.
  - destruct (Z.eq_dec k 0) as [-> | Hk0].
    + rewrite Z.add_0_r. exact E.
    + replace (t + k) with (t + 1 + (k - 1)) by lia.
      apply (IH _ H). lia.
Qed.

(** The two ways [power_wait_signals] can end. *)
Lemma power_wait_signals_cases (want : Z) (w : world) :
  (exists t,
      wait_all env want (gpio w) (now w) (wait_timeout env) = Some t
      /\ power_wait_signals env want w = (EC_SUCCESS, set_now t w, [])
      /\ now w <= t <= now w + Z.of_nat (wait_timeout env))
  \/ (wait_all env want (gpio w) (now w) (wait_timeout env) = None
      /\ power_wait_signals env want w
         = (EC_ERROR_TIMEOUT,
            set_now (now w + Z.of_nat (wait_timeout env)) w,
            [EvPowerTimeout want
               (Z.land (in_signals env (gpio w)
                          (now w + Z.of_nat (wait_timeout env)))
                       want)])).
Proof.
  unfold power_wait_signals.
  destruct (wait_all env want (gpio w) (now w) (wait_timeout env))
    as [t|] eqn:E.
  - left. exists t. repeat split; apply wait_all_bounds in E; lia.
  - right. split; reflexivity.
Qed.

(** The poll loop sleeps [k <= n] times one millisecond, changes nothing
    but the clock, and counts at most [n] iterations. *)
Lemma pltrst_poll_spec (n : nat) : forall (i : Z) (w : world),
  exists k : nat,
    (k <= n)%nat
    /\ events_of (pltrst_poll env n i w) = repeat (EvSleep MSEC) k
    /\ world_of (pltrst_poll env n i w)
       = set_now (now w + MSEC * Z.of_nat k) w
    /\ i <= result_of (pltrst_poll env n i w) <= i + Z.of_nat n.
Proof.
  induction n as [|n IH]; intros i w.
  - exists 0%nat. destruct w.
    cbv [pltrst_poll ret world_of result_of events_of fst snd set_now].
    cbn [now repeat]. repeat split; try lia. f_equal. lia.
  - cbn [pltrst_poll]. unfold_m. cbn [now set_now].
    destruct (pltrst_asserted env (now w + MSEC) =? 0) eqn:E.
    + exists 1%nat. cbn [repeat app].
      repeat split; try lia; unfold set_now; f_equal; lia.
    + destruct (IH (i + 1) (set_now (now w + MSEC) w))
        as [k [Hk [He [Hw Hi]]]].
      destruct (pltrst_poll env n (i + 1) (set_now (now w + MSEC) w))
        as [[i' w'] e'].
      cbv [events_of world_of result_of fst snd] in He, Hw, Hi.
      exists (S k). subst e' w'. cbn [repeat app].
      repeat split; try lia.
      unfold set_now; cbn [now gpio throttle_cpu pause_in_s5 restart_from_s5
                             fake_pltrst_timeout].
      f_equal. lia.
Qed.

(** If the platform reset line reads asserted at every poll, the loop
    runs out: all [n] iterations are made. *)
Lemma pltrst_poll_exhausted (n : nat) : forall (i : Z) (w : world),
  (forall k, 1 <= k <= Z.of_nat n ->
             pltrst_asserted env (now w + k * MSEC) <> 0) ->
  pltrst_poll env n i w
  = (i + Z.of_nat n, set_now (now w + MSEC * Z.of_nat n) w,
     repeat (EvSleep MSEC) n).
Proof.
  induction n as [|n IH]; intros i w H.
  - destruct w. cbv [pltrst_poll ret set_now]. cbn [now repeat].
    do 2 f_equal; [lia | f_equal; lia].
  - cbn [pltrst_poll]. unfold_m. cbn [now set_now].
    assert (E : (pltrst_asserted env (now w + MSEC) =? 0) = false).
    { apply Z.eqb_neq. replace (now w + MSEC) with (now w + 1 * MSEC) by lia.
      apply H. lia. }
    rewrite E.
    rewrite (IH (i + 1) (set_now (now w + MSEC) w)).
    + unfold set_now;
        cbn [now gpio throttle_cpu pause_in_s5 restart_from_s5
               fake_pltrst_timeout repeat app].
      do 2 f_equal; [lia | f_equal; lia].
    + intros k Hk. cbn [now set_now].
      replace (now w + MSEC + k * MSEC) with (now w + (k + 1) * MSEC) by lia.
      apply H. lia.
Qed.

End Bounded.

(** ** Termination and the transition table *)

(** Brings the GPIO levels the rails are looked at with to one form. *)
Ltac norm_lines :=
  unfold lines_in_S3, lines_in_G3S5, lines_in_S5S3, lines_in_S3S0 in *;
  cbn [now set_now set_gpio gpio set_pause_in_s5 set_restart_from_s5
       set_fake_pltrst_timeout] in *.

Ltac case_wait :=
  norm_lines;
  match goal with
  | |- context [power_wait_signals ?e ?m ?w] =>
      let t := fresh "t" in
      let Hwait := fresh "Hwait" in
      let Hrun := fresh "Hrun" in
      let Ht := fresh "Ht" in
      destruct (power_wait_signals_cases e m w)
        as [[t [Hwait [Hrun Ht]]] | [Hwait Hrun]];
      rewrite Hrun; clear Hrun; cbn [failed]; norm_lines
  end.

Ltac case_has :=
  unfold power_has_signals; norm_lines;
  match goal with
  | |- context [has_all ?x ?m] =>
      let Hhas := fresh "Hhas" in
      destruct (has_all x m) eqn:Hhas; cbn [truthy negb Z.eqb]
  end.

Ltac decide_iff :=
  cbn; split; intros ?H; first [discriminate | reflexivity].

Lemma in_all_power_states (s : power_state) : In s all_power_states.
Proof. destruct s; simpl; tauto. Qed.

(** C4: for every state, board, environment (so every signal mask over
    time) and world, [power_handle_state] is defined, returns one of the
    ten enumerators, and takes a bounded time: the clock advances by at
    most 100 ms plus two wait timeouts, the poll loop making at most 50
    one-millisecond sleeps.  It returns the state it was given exactly
    when no outgoing condition of that state holds. *)
Theorem power_handle_state_terminates
  (b : board) (env : environment) (s : power_state) (w : world) :
  In (result_of (power_handle_state b env s w)) all_power_states
  /\ now w <= now (world_of (power_handle_state b env s w))
            <= now w + max_call_time env
  /\ (forall i0 w0,
        (List.length (events_of (pltrst_poll env 50 i0 w0)) <= 50)%nat
        /\ result_of (pltrst_poll env 50 i0 w0) <= i0 + 50)
  /\ (result_of (power_handle_state b env s w) = s
      <-> outgoing_condition b env s w = false).
Proof.
  split; [apply in_all_power_states |].
  split; [| split].
  - unfold max_call_time.
    pose proof (Nat2Z.is_nonneg (wait_timeout env)) as HT.
    destruct s; unfold power_handle_state; unfold_m; cbn [now set_now].
    + unfold MSEC; lia.
    + destruct (_ =? 1); cbn [now]; unfold MSEC; lia.
    + case_has.
      * destruct (_ =? 1); [cbn [now set_gpio]; unfold MSEC; lia |].
        destruct (_ =? 0); cbn [now set_gpio]; unfold MSEC; lia.
      * cbn [now set_gpio]. unfold MSEC; lia.
    + case_has.
      * destruct (_ =? 0); cbn [now]; unfold MSEC; lia.
      * cbn [now set_gpio]. unfold MSEC; lia.
    + case_wait; cbn [now set_gpio set_now]; unfold MSEC in *; lia.
    + case_wait; [| cbn [now set_gpio set_now]; unfold MSEC in *; lia].
      case_wait; cbn [now set_gpio set_now]; unfold MSEC in *; lia.
    + case_wait; [| cbn [now set_gpio set_now]; unfold MSEC in *; lia].
      match goal with
      | |- context [pltrst_poll env 50 0 ?W] =>
          destruct (pltrst_poll_spec env 50 0 W) as [k [Hk [_ [Hw _]]]];
          destruct (pltrst_poll env 50 0 W) as [[i' w'] e']
      end.
      cbv [world_of fst snd] in Hw. subst w'.
      destruct (_ && _); cbn [now set_gpio set_now set_restart_from_s5
                                set_fake_pltrst_timeout];
        unfold MSEC in *; lia.
    + destruct (CONFIG_USB_PORT_POWER_IN_S3 b);
        [destruct (truthy _) |]; cbn [negb now set_gpio set_now];
        unfold MSEC; lia.
    + destruct (truthy (restart_from_s5 _));
        cbn [now set_gpio set_now set_restart_from_s5]; unfold MSEC; lia.
    + cbn [now set_gpio]. unfold MSEC; lia.
  - intros i0 w0.
    destruct (pltrst_poll_spec env 50 i0 w0) as [k [Hk [He [_ Hi]]]].
    rewrite He, repeat_length. split; lia.
  - destruct s; unfold power_handle_state, outgoing_condition;
      unfold_m; cbn [now set_now set_gpio].
    + tauto.
    + destruct (_ =? 1); decide_iff.
    + case_has; [| decide_iff].
      cbn [orb]. destruct (_ =? 1); [decide_iff |].
      destruct (_ =? 0); decide_iff.
    + case_has; [| decide_iff].
      cbn [orb]. destruct (_ =? 0); decide_iff.
    + case_wait; decide_iff.
    + case_wait; [| decide_iff].
      case_wait; decide_iff.
    + case_wait; [| decide_iff].
      match goal with
      | |- context [pltrst_poll env 50 0 ?W] =>
          destruct (pltrst_poll env 50 0 W) as [[i' w'] e']
      end.
      destruct (_ && _); decide_iff.
    + destruct (CONFIG_USB_PORT_POWER_IN_S3 b);
        [destruct (truthy _) |]; decide_iff.
    + destruct (truthy (restart_from_s5 _));
        [| destruct (truthy (pause_in_s5 _))]; decide_iff.
    + decide_iff.
Qed.

Lemma power_handle_state_terminates_witness :
  result_of (power_handle_state sample_board (steady_env 61 1 0 1) POWER_S0
               initial_world) = POWER_S0.
Proof.
  apply (proj2 (proj2 (proj2 (proj2
           (power_handle_state_terminates sample_board (steady_env 61 1 0 1)
              POWER_S0 initial_world))))).
  reflexivity.
Defined.

(** ** Faults move toward off *)

Lemma fault_detected_sleeps (us : Z) (k : nat) :
  fault_detected (repeat (EvSleep us) k) = false.
Proof. induction k as [|k IH]; simpl; [reflexivity | exact IH]. Qed.

(** C1: a call detects a rail fault (a [power_has_signals] failure or a
    [power_wait_signals] timeout appears among its events) exactly in
    the situations [rail_fault] lists: rails missing in S3 or S0, the
    wait of G3->S5 or of S3->S0 timing out, or either of the two waits
    of S5->S3 timing out.  It then calls [chipset_force_shutdown], so
    that PCH SYS PWROK and RSMRST# are low when it returns, and returns
    the fault exit of its state (S3 to S3S5, S0 to S0S3, G3S5 to G3,
    S5S3 to S5G3, S3S0 to S3), which is never more on than the state it
    was called in. *)
Theorem rail_fault_moves_toward_off
  (b : board) (env : environment) (s : power_state) (w : world) :
  fault_detected (events_of (power_handle_state b env s w))
    = rail_fault b env s w
  /\ (rail_fault b env s w = true ->
      calls_force_shutdown (events_of (power_handle_state b env s w)) = true
      /\ result_of (power_handle_state b env s w) = fault_exit s
      /\ on_level (result_of (power_handle_state b env s w)) <= on_level s
      /\ gpio (world_of (power_handle_state b env s w)) GPIO_PCH_SYS_PWROK = 0
      /\ gpio (world_of (power_handle_state b env s w)) GPIO_PCH_RSMRST_L = 0).
Proof.
  destruct s; unfold power_handle_state, rail_fault;
    unfold_m; cbn [now set_now set_gpio].
  - split; [reflexivity | discriminate].
  - destruct (_ =? 1); (split; [reflexivity | discriminate]).
  - case_has.
    + destruct (_ =? 1); [split; [reflexivity | discriminate] |].
      destruct (_ =? 0); (split; [reflexivity | discriminate]).
    + split; [reflexivity |]. intros _. repeat split. cbn. lia.
  - case_has.
    + destruct (_ =? 0); (split; [reflexivity | discriminate]).
    + split; [reflexivity |]. intros _. repeat split. cbn. lia.
  - case_wait; rewrite Hwait.
    + split; [reflexivity | discriminate].
    + split; [reflexivity |]. intros _. repeat split. cbn. lia.
  - case_wait; rewrite Hwait.
    + case_wait; rewrite Hwait0.
      * split; [reflexivity | discriminate].
      * split; [reflexivity |]. intros _. repeat split. cbn. lia.
    + split; [reflexivity |]. intros _. repeat split. cbn. lia.
  - case_wait; rewrite Hwait.
    + match goal with
      | |- context [pltrst_poll env 50 0 ?W] =>
          destruct (pltrst_poll_spec env 50 0 W) as [k [Hk [He _]]];
          destruct (pltrst_poll env 50 0 W) as [[i' w'] e']
      end.
      cbv [events_of snd] in He. subst e'.
      split; [| discriminate].
      destruct (_ && _); cbn [app];
        unfold fault_detected; cbn [existsb is_fault orb];
        rewrite existsb_app;
        change (existsb is_fault (repeat (EvSleep MSEC) k))
          with (fault_detected (repeat (EvSleep MSEC) k));
        rewrite fault_detected_sleeps; reflexivity.
    + split; [reflexivity |]. intros _. repeat split. cbn. lia.
  - destruct (CONFIG_USB_PORT_POWER_IN_S3 b);
      [destruct (truthy _) |]; (split; [reflexivity | discriminate]).
  - destruct (truthy (restart_from_s5 _));
      [| destruct (truthy (pause_in_s5 _))];
      (split; [reflexivity | discriminate]).
  - split; [reflexivity | discriminate].
Qed.

Lemma rail_fault_moves_toward_off_witness :
  (calls_force_shutdown
     (events_of (power_handle_state sample_board (steady_env 0 1 0 0) POWER_S0
                   powered_world)) = true
   /\ result_of (power_handle_state sample_board (steady_env 0 1 0 0) POWER_S0
                   powered_world) = POWER_S0S3
   /\ gpio (world_of (power_handle_state sample_board (steady_env 0 1 0 0)
                        POWER_S0 powered_world)) GPIO_PCH_SYS_PWROK = 0)
  /\ (wait_all (ram_load_env 61) (IN_PGOOD_ALWAYS_ON sample_board)
        (gpio (set_gpio GPIO_PP1350_EN 0 powered_world)) 0 20 = Some 0
      /\ gpio_writes
           (events_of (power_handle_state sample_board (ram_load_env 61)
                         POWER_S5S3
                         (set_gpio GPIO_PP1350_EN 0 powered_world)))
         = [(GPIO_PP1350_EN, 1); (GPIO_PCH_SYS_PWROK, 0);
            (GPIO_PCH_RSMRST_L, 0)]
      /\ calls_force_shutdown
           (events_of (power_handle_state sample_board (ram_load_env 61)
                         POWER_S5S3
                         (set_gpio GPIO_PP1350_EN 0 powered_world))) = true
      /\ result_of (power_handle_state sample_board (ram_load_env 61)
                      POWER_S5S3
                         (set_gpio GPIO_PP1350_EN 0 powered_world)) = POWER_S5G3
      /\ gpio (world_of (power_handle_state sample_board (ram_load_env 61)
                           POWER_S5S3
                         (set_gpio GPIO_PP1350_EN 0 powered_world))) GPIO_PCH_RSMRST_L = 0).
Proof.
  split.
  - destruct (proj2 (rail_fault_moves_toward_off sample_board
                       (steady_env 0 1 0 0) POWER_S0 powered_world))
      as [Hcall [Hres [_ [Hsys _]]]].
    + reflexivity.
    + split; [exact Hcall | split; [exact Hres | exact Hsys]].
  - destruct (proj2 (rail_fault_moves_toward_off sample_board
                       (ram_load_env 61) POWER_S5S3
                         (set_gpio GPIO_PP1350_EN 0 powered_world)))
      as [Hcall [Hres [_ [_ Hrsm]]]].
    + reflexivity.
    + split; [reflexivity |]. split; [reflexivity |].
      split; [exact Hcall | split; [exact Hres | exact Hrsm]].
Defined.

(** ** Which rails S0 watches *)

Lemma board_ok_index (b : board) (s : power_signal) :
  board_ok b = true -> 0 <= signal_index b s < 32.
Proof.
  unfold board_ok. intros H. apply andb_true_iff in H. destruct H as [H _].
  rewrite forallb_forall in H.
  assert (Hin : In s all_power_signals) by (destruct s; simpl; tauto).
  specialize (H s Hin). apply andb_true_iff in H. lia.
Qed.

Lemma POWER_SIGNAL_MASK_bit (b : board) (s : power_signal) (n : Z) :
  0 <= signal_index b s ->
  Z.testbit (POWER_SIGNAL_MASK b s) n = (signal_index b s =? n).
Proof.
  intros H. unfold POWER_SIGNAL_MASK. rewrite Z.shiftl_1_l.
  apply Z.pow2_bits_eqb. exact H.
Qed.

(** The S0 rail check looks at the S5 and PP5000 power-good bits. *)
Lemma has_all_IN_PGOOD_S0 (b : board) (sigs : Z) :
  board_ok b = true ->
  has_all sigs (IN_PGOOD_S0 b)
  = Z.testbit sigs (signal_index b X86_PGOOD_S5)
    && Z.testbit sigs (signal_index b X86_PGOOD_PP5000).
Proof.
  intros Hb.
  pose proof (board_ok_index b X86_PGOOD_S5 Hb) as H5.
  pose proof (board_ok_index b X86_PGOOD_PP5000 Hb) as H50.
  assert (Hbit : forall n,
    Z.testbit (IN_PGOOD_S0 b) n
    = (signal_index b X86_PGOOD_S5 =? n)
      || (signal_index b X86_PGOOD_PP5000 =? n)).
  { intros n. unfold IN_PGOOD_S0, IN_PGOOD_ALWAYS_ON, IN_PGOOD_ALL_NONCORE,
      IN_PGOOD_S5, IN_PGOOD_PP5000.
    rewrite Z.lor_spec, !POWER_SIGNAL_MASK_bit by lia. reflexivity. }
  apply eq_true_iff_eq. rewrite has_all_iff_bits, andb_true_iff. split.
  - intros H. split; apply H; rewrite Hbit, Z.eqb_refl;
      [reflexivity | apply orb_true_r].
  - intros [Ha Hc] n Hn. rewrite Hbit in Hn. apply orb_true_iff in Hn.
    destruct Hn as [Hn | Hn]; apply Z.eqb_eq in Hn; subst n; assumption.
Qed.

(** C2, as amended: in S0 the rails watched are those of IN_PGOOD_S0,
    the always-on S5 rail and the non-core PP5000 rail.  If either
    power-good bit is missing from the mask, the call logs the loss,
    calls [chipset_force_shutdown] and returns POWER_S0S3.  The core
    rail's bit, IN_PGOOD_VCORE, is not looked at: with the two watched
    bits set the call does nothing and follows SLP_S3# alone, staying in
    POWER_S0 while the line reads high. *)
Theorem S0_watches_noncore_rails (b : board) (env : environment) (w : world) :
  board_ok b = true ->
  (Z.testbit (in_signals env (gpio w) (now w)) (signal_index b X86_PGOOD_S5) = false
   \/ Z.testbit (in_signals env (gpio w) (now w)) (signal_index b X86_PGOOD_PP5000)
      = false ->
   power_handle_state b env POWER_S0 w
   = (POWER_S0S3,
      set_gpio GPIO_PCH_RSMRST_L 0 (set_gpio GPIO_PCH_SYS_PWROK 0 w),
      EvPowerLost (IN_PGOOD_S0 b)
        (Z.land (in_signals env (gpio w) (now w)) (IN_PGOOD_S0 b))
      :: force_shutdown_events))
  /\ (Z.testbit (in_signals env (gpio w) (now w)) (signal_index b X86_PGOOD_S5) = true ->
      Z.testbit (in_signals env (gpio w) (now w)) (signal_index b X86_PGOOD_PP5000)
      = true ->
      power_handle_state b env POWER_S0 w
      = (if pin_level env GPIO_PCH_SLP_S3_L (now w) =? 0
         then POWER_S0S3 else POWER_S0, w, [])).
Proof.
  intros Hb.
  pose proof (has_all_IN_PGOOD_S0 b (in_signals env (gpio w) (now w)) Hb) as Hhas.
  unfold power_handle_state, power_has_signals. unfold_m.
  split.
  - intros Hlost.
    assert (E : has_all (in_signals env (gpio w) (now w)) (IN_PGOOD_S0 b) = false).
    { rewrite Hhas. destruct Hlost as [-> | ->];
        [reflexivity | apply andb_false_r]. }
    rewrite E. reflexivity.
  - intros H5 H50.
    assert (E : has_all (in_signals env (gpio w) (now w)) (IN_PGOOD_S0 b) = true).
    { rewrite Hhas, H5, H50. reflexivity. }
    rewrite E. cbn [truthy negb Z.eqb].
    destruct (_ =? 0); reflexivity.
Qed.

Lemma S0_watches_noncore_rails_witness :
  power_handle_state sample_board (steady_env 56 1 0 0) POWER_S0 initial_world
  = (POWER_S0S3,
     set_gpio GPIO_PCH_RSMRST_L 0 (set_gpio GPIO_PCH_SYS_PWROK 0 initial_world),
     EvPowerLost 5 0 :: force_shutdown_events)
  /\ power_handle_state sample_board (steady_env 53 1 0 0) POWER_S0 initial_world
     = (POWER_S0, initial_world, []).
Proof.
  split.
  - apply (proj1 (S0_watches_noncore_rails sample_board (steady_env 56 1 0 0)
                    initial_world eq_refl)).
    left. reflexivity.
  - apply (proj2 (S0_watches_noncore_rails sample_board (steady_env 53 1 0 0)
                    initial_world eq_refl)); reflexivity.
Defined.

(** C2, as stated, fails: on the sample board the mask 53 is IN_ALL_S0
    without the IN_PGOOD_VCORE bit, both sleep lines read high, and the
    call in S0 returns POWER_S0 with no action, in particular without
    calling [chipset_force_shutdown]. *)
Lemma S0_ignores_vcore_loss :
  Z.testbit 53 (signal_index sample_board X86_PGOOD_VCORE) = false
  /\ Z.lor 53 (IN_PGOOD_VCORE sample_board) = IN_ALL_S0 sample_board
  /\ power_handle_state sample_board (steady_env 53 1 0 0) POWER_S0
       initial_world = (POWER_S0, initial_world, [])
  /\ POWER_S0 <> POWER_S0S3
  /\ calls_force_shutdown
       (events_of (power_handle_state sample_board (steady_env 53 1 0 0)
                     POWER_S0 initial_world)) = false.
Proof.
  repeat split. discriminate.
Qed.

(** ** Platform reset timeout *)

(** C3, as amended: if the rails come up in the S3->S0 transition (the
    wait ends at [t1]) and the platform reset line reads asserted at
    each of the 50 polls, one millisecond apart from 15 ms after [t1],
    the call releases the power button, calls [chipset_force_shutdown],
    sets [restart_from_s5], clears [fake_pltrst_timeout] and returns
    POWER_S0, not POWER_S3.  The flag is left alone by every state other
    than S3S0 and S3S5, and a call in S3S5 with the flag set clears it,
    pulses the power button and returns POWER_G3S5. *)
Theorem pltrst_timeout_restarts_from_s5
  (b : board) (env : environment) (w : world) (t1 : Z) :
  wait_all env (IN_PGOOD_S0 b) (lines_in_S3S0 w) (now w + 3 * MSEC)
    (wait_timeout env) = Some t1 ->
  (forall k, 1 <= k <= 50 ->
             pltrst_asserted env (t1 + 15 * MSEC + k * MSEC) <> 0) ->
  result_of (power_handle_state b env POWER_S3S0 w) = POWER_S0
  /\ restart_from_s5 (world_of (power_handle_state b env POWER_S3S0 w)) = 1
  /\ fake_pltrst_timeout (world_of (power_handle_state b env POWER_S3S0 w)) = 0
  /\ events_of (power_handle_state b env POWER_S3S0 w)
     = [EvGpioSet GPIO_PP5000_EN 1; EvSleep (3 * MSEC);
        EvGpioSet GPIO_PP3300_DX_EN 1; EvWireless WIRELESS_ON;
        EvGpioSet GPIO_TOUCHSCREEN_RESET_L 1; EvGpioSet GPIO_VCORE_EN 1;
        EvHook HOOK_CHIPSET_RESUME; EvDisableSleep SLEEP_MASK_AP_RUN;
        EvSleep (15 * MSEC); EvGpioSet GPIO_CPU_PROCHOT (throttle_cpu w);
        EvGpioSet GPIO_PCH_SYS_PWROK 1; EvGpioSet GPIO_PCH_CORE_PWROK 1]
       ++ repeat (EvSleep MSEC) 50
       ++ [EvConsole "power PLTRST# timeout" []; EvButtonRelease]
       ++ force_shutdown_events
  /\ (forall s w', s <> POWER_S3S0 -> s <> POWER_S3S5 ->
        restart_from_s5 (world_of (power_handle_state b env s w'))
        = restart_from_s5 w')
  /\ (forall w', restart_from_s5 w' <> 0 ->
        result_of (power_handle_state b env POWER_S3S5 w') = POWER_G3S5
        /\ restart_from_s5 (world_of (power_handle_state b env POWER_S3S5 w'))
           = 0
        /\ In EvButtonPulse (events_of (power_handle_state b env POWER_S3S5 w'))).
Proof.
  intros Hwait Hplt.
  assert (Hrun : power_handle_state b env POWER_S3S0 w
    = (POWER_S0,
       set_fake_pltrst_timeout 0
         (set_restart_from_s5 1
            (set_gpio GPIO_PCH_RSMRST_L 0
               (set_gpio GPIO_PCH_SYS_PWROK 0
                  (set_now (t1 + 15 * MSEC + MSEC * 50)
                     (set_gpio GPIO_PCH_CORE_PWROK 1
                        (set_gpio GPIO_PCH_SYS_PWROK 1
                           (set_gpio GPIO_CPU_PROCHOT (throttle_cpu w)
                              (set_gpio GPIO_VCORE_EN 1
                                 (set_gpio GPIO_TOUCHSCREEN_RESET_L 1
                                    (set_gpio GPIO_PP3300_DX_EN 1
                                       (set_gpio GPIO_PP5000_EN 1 w))))))))))),
       [EvGpioSet GPIO_PP5000_EN 1; EvSleep (3 * MSEC);
        EvGpioSet GPIO_PP3300_DX_EN 1; EvWireless WIRELESS_ON;
        EvGpioSet GPIO_TOUCHSCREEN_RESET_L 1; EvGpioSet GPIO_VCORE_EN 1;
        EvHook HOOK_CHIPSET_RESUME; EvDisableSleep SLEEP_MASK_AP_RUN;
        EvSleep (15 * MSEC); EvGpioSet GPIO_CPU_PROCHOT (throttle_cpu w);
        EvGpioSet GPIO_PCH_SYS_PWROK 1; EvGpioSet GPIO_PCH_CORE_PWROK 1]
       ++ repeat (EvSleep MSEC) 50
       ++ [EvConsole "power PLTRST# timeout" []; EvButtonRelease]
       ++ force_shutdown_events)).
  { unfold power_handle_state. unfold_m. cbn [now set_now set_gpio].
    unfold power_wait_signals. norm_lines.
    rewrite Hwait. cbn [failed now set_now set_gpio throttle_cpu].
    match goal with
    | |- context [pltrst_poll env 50 0 ?W] =>
        rewrite (pltrst_poll_exhausted env 50 0 W)
          by (intros k Hk; apply Hplt; lia)
    end.
    reflexivity. }
  rewrite Hrun. cbv [result_of world_of events_of fst snd].
  split; [reflexivity |]. split; [reflexivity |]. split; [reflexivity |].
  split; [reflexivity |]. split.
  - intros s w' Hn0 Hn5.
    destruct s; try contradiction;
      unfold power_handle_state; unfold_m; cbn [now set_now set_gpio].
    + reflexivity.
    + destruct (_ =? 1); reflexivity.
    + case_has; [| reflexivity].
      destruct (_ =? 1); [reflexivity |].
      destruct (_ =? 0); reflexivity.
    + case_has; [| reflexivity].
      destruct (_ =? 0); reflexivity.
    + case_wait; reflexivity.
    + case_wait; [| reflexivity]. case_wait; reflexivity.
    + destruct (CONFIG_USB_PORT_POWER_IN_S3 b);
        [destruct (truthy _) |]; reflexivity.
    + reflexivity.
  - intros w' Hr. apply truthy_true in Hr.
    unfold power_handle_state. unfold_m. cbn [restart_from_s5 set_gpio].
    rewrite Hr. cbn. repeat split. tauto.
Qed.

Lemma pltrst_timeout_restarts_from_s5_witness :
  result_of (power_handle_state sample_board (steady_env 61 1 1 0) POWER_S3S0
               initial_world) = POWER_S0
  /\ restart_from_s5
       (world_of (power_handle_state sample_board (steady_env 61 1 1 0)
                    POWER_S3S0 initial_world)) = 1.
Proof.
  destruct (pltrst_timeout_restarts_from_s5 sample_board (steady_env 61 1 1 0)
              initial_world 3000) as [Hres [Hflag _]].
  - reflexivity.
  - intros k Hk. unfold steady_env. cbn [pltrst_asserted]. lia.
  - split; [exact Hres | exact Hflag].
Defined.

(** C3, as stated, fails: with the rails good and the platform reset
    line asserted throughout, the S3->S0 call takes the timeout path
    (it logs the timeout, releases the button and sets the flag) and
    returns POWER_S0, not a transition back to S3. *)
Lemma pltrst_timeout_returns_S0 :
  infixb ([EvConsole "power PLTRST# timeout" []; EvButtonRelease]
            ++ force_shutdown_events)
    (events_of (power_handle_state sample_board (steady_env 61 1 1 0)
                  POWER_S3S0 initial_world)) = true
  /\ restart_from_s5
       (world_of (power_handle_state sample_board (steady_env 61 1 1 0)
                    POWER_S3S0 initial_world)) = 1
  /\ result_of (power_handle_state sample_board (steady_env 61 1 1 0)
                  POWER_S3S0 initial_world) = POWER_S0
  /\ result_of (power_handle_state sample_board (steady_env 61 1 1 0)
                  POWER_S3S0 initial_world) <> POWER_S3.
Proof.
  repeat split. vm_compute. discriminate.
Qed.

(** * Further properties of the module *)

(** ** The pause_in_s5 host command *)

Lemma to_uint32_to_int32 (v : Z) :
  0 <= v < 2 ^ 32 -> to_uint32 (to_int32 v) = v.
Proof.
  intros Hv. unfold to_uint32, to_int32.
  rewrite (Z.mod_small v) by lia.
  destruct (v <? 2 ^ 31).
  - apply Z.mod_small. lia.
  - replace (v - 2 ^ 32) with (v + (-1) * 2 ^ 32) by lia.
    rewrite Z.mod_add by lia. apply Z.mod_small. lia.
Qed.

Lemma truthy_to_int32 (v : Z) :
  0 <= v < 2 ^ 32 -> truthy (to_int32 v) = negb (v =? 0).
Proof.
  intros Hv. unfold truthy, to_int32. f_equal.
  rewrite (Z.mod_small v) by lia.
  destruct (Z.ltb_spec v (2 ^ 31)).
  - reflexivity.
  - destruct (Z.eqb_spec (v - 2 ^ 32) 0), (Z.eqb_spec v 0); lia.
Qed.

(** X1: The host command stores any 32-bit value it is given, and a later
    read returns that same value: a request with the set flag answers
    with the value it stored, a following request without the flag
    answers with it again and changes nothing, and neither prints or
    actuates anything. *)
Theorem host_command_gsv_set_then_get
  (EC_GSV_SET sizeof_response : Z) (p q : ec_params_get_set_value)
  (w : world) :
  Z.land (gsv_flags p) EC_GSV_SET <> 0 ->
  Z.land (gsv_flags q) EC_GSV_SET = 0 ->
  0 <= gsv_value p < 2 ^ 32 ->
  r_value (snd (result_of (host_command_gsv EC_GSV_SET sizeof_response p w)))
    = gsv_value p
  /\ world_of (host_command_gsv EC_GSV_SET sizeof_response p w)
     = set_pause_in_s5 (to_int32 (gsv_value p)) w
  /\ host_command_gsv EC_GSV_SET sizeof_response q
       (world_of (host_command_gsv EC_GSV_SET sizeof_response p w))
     = (EC_RES_SUCCESS,
        {| r_value := gsv_value p; response_size := sizeof_response |},
        world_of (host_command_gsv EC_GSV_SET sizeof_response p w), []).
Proof.
  intros Hset Hget Hv.
  apply truthy_true in Hset. apply truthy_false in Hget.
  unfold host_command_gsv. unfold_m. rewrite Hset, Hget.
  cbn [pause_in_s5 set_pause_in_s5 r_value app].
  rewrite (to_uint32_to_int32 _ Hv). repeat split.
Qed.

Lemma host_command_gsv_set_then_get_witness :
  host_command_gsv 2147483648 8 {| gsv_flags := 0; gsv_value := 0 |}
    (world_of (host_command_gsv 2147483648 8
                 {| gsv_flags := 2147483648; gsv_value := 4294967295 |}
                 initial_world))
  = (EC_RES_SUCCESS, {| r_value := 4294967295; response_size := 8 |},
     world_of (host_command_gsv 2147483648 8
                 {| gsv_flags := 2147483648; gsv_value := 4294967295 |}
                 initial_world), []).
Proof.
  apply (host_command_gsv_set_then_get 2147483648 8
           {| gsv_flags := 2147483648; gsv_value := 4294967295 |}
           {| gsv_flags := 0; gsv_value := 0 |} initial_world).
  - vm_compute. discriminate.
  - reflexivity.
  - cbn [gsv_value]. lia.
Defined.

(** X2: The host path does not validate the value: whatever 32-bit value the
    host stores decides the exit of the next S3->S5 transition (with no
    restart pending) by being zero or not, so any nonzero value, not
    only 1, makes the machine pause in S5. *)
Theorem host_value_steers_S3S5
  (b : board) (env : environment) (EC_GSV_SET sizeof_response : Z)
  (p : ec_params_get_set_value) (w : world) :
  Z.land (gsv_flags p) EC_GSV_SET <> 0 ->
  0 <= gsv_value p < 2 ^ 32 ->
  restart_from_s5 w = 0 ->
  result_of (power_handle_state b env POWER_S3S5
               (world_of (host_command_gsv EC_GSV_SET sizeof_response p w)))
  = (if gsv_value p =? 0 then POWER_S5G3 else POWER_S5).
Proof.
  intros Hset Hv Hr.
  apply truthy_true in Hset. apply truthy_false in Hr.
  unfold host_command_gsv, power_handle_state. unfold_m. rewrite Hset.
  cbn [restart_from_s5 pause_in_s5 set_pause_in_s5 set_gpio].
  rewrite Hr. cbn [pause_in_s5 set_pause_in_s5 set_gpio].
  rewrite (truthy_to_int32 _ Hv).
  destruct (gsv_value p =? 0); reflexivity.
Qed.

Lemma host_value_steers_S3S5_witness :
  result_of (power_handle_state sample_board (steady_env 0 0 0 0) POWER_S3S5
               (world_of (host_command_gsv 2147483648 8
                            {| gsv_flags := 2147483648; gsv_value := 2 |}
                            initial_world)))
  = POWER_S5.
Proof.
  apply (host_value_steers_S3S5 sample_board (steady_env 0 0 0 0) 2147483648 8
           {| gsv_flags := 2147483648; gsv_value := 2 |} initial_world).
  - vm_compute. discriminate.
  - cbn [gsv_value]. lia.
  - reflexivity.
Defined.

(** ** The platform reset poll *)

(** If the line first reads deasserted at the [j]-th poll, the loop
    stops there: [j] sleeps, and the counter is [j - 1] further on. *)
Lemma pltrst_poll_break (env : environment) (n : nat) :
  forall (j : nat) (i : Z) (w : world),
  (1 <= j <= n)%nat ->
  (forall k, 1 <= k < Z.of_nat j ->
             pltrst_asserted env (now w + k * MSEC) <> 0) ->
  pltrst_asserted env (now w + Z.of_nat j * MSEC) = 0 ->
  pltrst_poll env n i w
  = (i + Z.of_nat j - 1, set_now (now w + MSEC * Z.of_nat j) w,
     repeat (EvSleep MSEC) j).
Proof.
  induction n as [|n IH]; intros j i w Hj Hbefore Hat; [lia |].
  cbn [pltrst_poll]. unfold_m. cbn [now set_now].
  destruct (Nat.eq_dec j 1) as [-> | Hj1].
  - replace (now w + Z.of_nat 1 * MSEC) with (now w + MSEC) in Hat by lia.
    rewrite Hat. cbn [Z.eqb repeat app].
    unfold set_now. repeat (f_equal; try lia).
  - assert (E : (pltrst_asserted env (now w + MSEC) =? 0) = false).
    { apply Z.eqb_neq. replace (now w + MSEC) with (now w + 1 * MSEC) by lia.
      apply Hbefore. lia. }
    rewrite E.
    destruct j as [|j']; [lia |].
    rewrite (IH j' (i + 1) (set_now (now w + MSEC) w)).
    + unfold set_now;
        cbn [now gpio throttle_cpu pause_in_s5 restart_from_s5
               fake_pltrst_timeout repeat app].
      do 2 f_equal; [lia | f_equal; lia].
    + lia.
    + intros k Hk. cbn [now set_now].
      replace (now w + MSEC + k * MSEC) with (now w + (k + 1) * MSEC) by lia.
      apply Hbefore. lia.
    + cbn [now set_now].
      replace (now w + MSEC + Z.of_nat j' * MSEC)
        with (now w + Z.of_nat (S j') * MSEC) by lia.
      exact Hat.
Qed.

Lemma infixb_no_head (x : event) (p l : list event) :
  existsb (event_eqb x) l = false -> infixb (x :: p) l = false.
Proof.
  induction l as [|y l IH]; intros H.
  - reflexivity.
  - cbn [existsb] in H. apply orb_false_iff in H. destruct H as [Hy Hl].
    cbn [infixb prefixb]. rewrite Hy, (IH Hl). reflexivity.
Qed.

Lemma existsb_repeat_false {A} (f : A -> bool) (x : A) (k : nat) :
  f x = false -> existsb f (repeat x k) = false.
Proof.
  intros H. induction k as [|k IH]; cbn [repeat existsb];
    [reflexivity | rewrite H, IH; reflexivity].
Qed.

(** X3: The S3->S0 script when the platform reset line lets go in time: if
    the rails come up (the wait ends at [t1]), no fake timeout is
    pending and the line first reads deasserted at the [j]-th of the 50
    polls (the 50th still counts), the call returns POWER_S0 exactly
    [15 + j] ms after [t1], logs the deassertion, leaves
    [restart_from_s5] alone, does not call [chipset_force_shutdown] and
    leaves VCORE and both PWROK lines driven high. *)
Theorem S3S0_pltrst_deasserted_in_time
  (b : board) (env : environment) (w : world) (t1 : Z) (j : nat) :
  wait_all env (IN_PGOOD_S0 b) (lines_in_S3S0 w) (now w + 3 * MSEC)
    (wait_timeout env) = Some t1 ->
  fake_pltrst_timeout w = 0 ->
  (1 <= j <= 50)%nat ->
  (forall k, 1 <= k < Z.of_nat j ->
             pltrst_asserted env (t1 + 15 * MSEC + k * MSEC) <> 0) ->
  pltrst_asserted env (t1 + 15 * MSEC + Z.of_nat j * MSEC) = 0 ->
  result_of (power_handle_state b env POWER_S3S0 w) = POWER_S0
  /\ now (world_of (power_handle_state b env POWER_S3S0 w))
     = t1 + 15 * MSEC + MSEC * Z.of_nat j
  /\ restart_from_s5 (world_of (power_handle_state b env POWER_S3S0 w))
     = restart_from_s5 w
  /\ events_of (power_handle_state b env POWER_S3S0 w)
     = [EvGpioSet GPIO_PP5000_EN 1; EvSleep (3 * MSEC);
        EvGpioSet GPIO_PP3300_DX_EN 1; EvWireless WIRELESS_ON;
        EvGpioSet GPIO_TOUCHSCREEN_RESET_L 1; EvGpioSet GPIO_VCORE_EN 1;
        EvHook HOOK_CHIPSET_RESUME; EvDisableSleep SLEEP_MASK_AP_RUN;
        EvSleep (15 * MSEC); EvGpioSet GPIO_CPU_PROCHOT (throttle_cpu w);
        EvGpioSet GPIO_PCH_SYS_PWROK 1; EvGpioSet GPIO_PCH_CORE_PWROK 1]
       ++ repeat (EvSleep MSEC) j
       ++ [EvConsole "power PLTRST# deasserted" []]
  /\ calls_force_shutdown (events_of (power_handle_state b env POWER_S3S0 w))
     = false
  /\ gpio (world_of (power_handle_state b env POWER_S3S0 w)) GPIO_VCORE_EN = 1
  /\ gpio (world_of (power_handle_state b env POWER_S3S0 w))
          GPIO_PCH_SYS_PWROK = 1
  /\ gpio (world_of (power_handle_state b env POWER_S3S0 w))
          GPIO_PCH_CORE_PWROK = 1.
Proof.
  intros Hwait Hfake Hj Hbefore Hat.
  assert (Hlt : (0 + Z.of_nat j - 1 <? 50) = true) by (apply Z.ltb_lt; lia).
  assert (Hrun : power_handle_state b env POWER_S3S0 w
    = (POWER_S0,
       set_now (t1 + 15 * MSEC + MSEC * Z.of_nat j)
         (set_gpio GPIO_PCH_CORE_PWROK 1
            (set_gpio GPIO_PCH_SYS_PWROK 1
               (set_gpio GPIO_CPU_PROCHOT (throttle_cpu w)
                  (set_gpio GPIO_VCORE_EN 1
                     (set_gpio GPIO_TOUCHSCREEN_RESET_L 1
                        (set_gpio GPIO_PP3300_DX_EN 1
                           (set_gpio GPIO_PP5000_EN 1 w))))))),
       [EvGpioSet GPIO_PP5000_EN 1; EvSleep (3 * MSEC);
        EvGpioSet GPIO_PP3300_DX_EN 1; EvWireless WIRELESS_ON;
        EvGpioSet GPIO_TOUCHSCREEN_RESET_L 1; EvGpioSet GPIO_VCORE_EN 1;
        EvHook HOOK_CHIPSET_RESUME; EvDisableSleep SLEEP_MASK_AP_RUN;
        EvSleep (15 * MSEC); EvGpioSet GPIO_CPU_PROCHOT (throttle_cpu w);
        EvGpioSet GPIO_PCH_SYS_PWROK 1; EvGpioSet GPIO_PCH_CORE_PWROK 1]
       ++ repeat (EvSleep MSEC) j
       ++ [EvConsole "power PLTRST# deasserted" []])).
  { unfold power_handle_state. unfold_m. cbn [now set_now set_gpio].
    unfold power_wait_signals. norm_lines.
    rewrite Hwait. cbn [failed now set_now set_gpio throttle_cpu].
    match goal with
    | |- context [pltrst_poll env 50 0 ?W] =>
        rewrite (pltrst_poll_break env 50 j 0 W Hj)
          by (cbn [now]; assumption)
    end.
    cbn [fake_pltrst_timeout set_now set_gpio now]. rewrite Hfake, Hlt.
    cbn [truthy Z.eqb negb andb].
    rewrite <- !app_assoc. reflexivity. }
  rewrite Hrun. cbv [result_of world_of events_of fst snd].
  repeat split.
  unfold calls_force_shutdown, force_shutdown_events.
  apply infixb_no_head.
  cbn [app existsb event_eqb orb].
  rewrite existsb_app, existsb_repeat_false by reflexivity. reflexivity.
Qed.

Lemma S3S0_pltrst_deasserted_in_time_witness :
  result_of (power_handle_state sample_board (steady_env 61 1 0 0) POWER_S3S0
               initial_world) = POWER_S0
  /\ now (world_of (power_handle_state sample_board (steady_env 61 1 0 0)
                      POWER_S3S0 initial_world)) = 19000.
Proof.
  destruct (S3S0_pltrst_deasserted_in_time sample_board (steady_env 61 1 0 0)
              initial_world 3000 1) as [Hres [Hnow _]].
  - reflexivity.
  - reflexivity.
  - lia.
  - intros k Hk. lia.
  - reflexivity.
  - split; [exact Hres | exact Hnow].
Defined.

(** ** Fault injection *)

(** X4: The powerfail console command makes exactly the next power-on fail:
    after it, an S3->S0 call whose rails come up takes the timeout path
    although the platform reset line reads deasserted at the very first
    poll (one 1 ms sleep only): it releases the power button, calls
    [chipset_force_shutdown], sets [restart_from_s5] and returns
    POWER_S0; and it clears [fake_pltrst_timeout], so the request is
    used up. *)
Theorem powerfail_fails_next_power_on
  (b : board) (env : environment) (argc : Z) (argv : list string)
  (w : world) (t1 : Z) :
  wait_all env (IN_PGOOD_S0 b) (lines_in_S3S0 w) (now w + 3 * MSEC)
    (wait_timeout env) = Some t1 ->
  pltrst_asserted env (t1 + 15 * MSEC + MSEC) = 0 ->
  fake_pltrst_timeout (world_of (console_command_powerfail argc argv w)) = 1
  /\ result_of (power_handle_state b env POWER_S3S0
                  (world_of (console_command_powerfail argc argv w)))
     = POWER_S0
  /\ restart_from_s5
       (world_of (power_handle_state b env POWER_S3S0
                    (world_of (console_command_powerfail argc argv w)))) = 1
  /\ fake_pltrst_timeout
       (world_of (power_handle_state b env POWER_S3S0
                    (world_of (console_command_powerfail argc argv w)))) = 0
  /\ events_of (power_handle_state b env POWER_S3S0
                  (world_of (console_command_powerfail argc argv w)))
     = [EvGpioSet GPIO_PP5000_EN 1; EvSleep (3 * MSEC);
        EvGpioSet GPIO_PP3300_DX_EN 1; EvWireless WIRELESS_ON;
        EvGpioSet GPIO_TOUCHSCREEN_RESET_L 1; EvGpioSet GPIO_VCORE_EN 1;
        EvHook HOOK_CHIPSET_RESUME; EvDisableSleep SLEEP_MASK_AP_RUN;
        EvSleep (15 * MSEC); EvGpioSet GPIO_CPU_PROCHOT (throttle_cpu w);
        EvGpioSet GPIO_PCH_SYS_PWROK 1; EvGpioSet GPIO_PCH_CORE_PWROK 1;
        EvSleep MSEC;
        EvConsole "power PLTRST# timeout" []; EvButtonRelease]
       ++ force_shutdown_events.
Proof.
  intros Hwait Hat.
  split; [reflexivity |].
  assert (Hrun : power_handle_state b env POWER_S3S0
                   (world_of (console_command_powerfail argc argv w))
    = (POWER_S0,
       set_fake_pltrst_timeout 0
         (set_restart_from_s5 1
            (set_gpio GPIO_PCH_RSMRST_L 0
               (set_gpio GPIO_PCH_SYS_PWROK 0
                  (set_now (t1 + 15 * MSEC + MSEC * 1)
                     (set_gpio GPIO_PCH_CORE_PWROK 1
                        (set_gpio GPIO_PCH_SYS_PWROK 1
                           (set_gpio GPIO_CPU_PROCHOT (throttle_cpu w)
                              (set_gpio GPIO_VCORE_EN 1
                                 (set_gpio GPIO_TOUCHSCREEN_RESET_L 1
                                    (set_gpio GPIO_PP3300_DX_EN 1
                                       (set_gpio GPIO_PP5000_EN 1
                                          (set_fake_pltrst_timeout 1 w)))))))))))),
       [EvGpioSet GPIO_PP5000_EN 1; EvSleep (3 * MSEC);
        EvGpioSet GPIO_PP3300_DX_EN 1; EvWireless WIRELESS_ON;
        EvGpioSet GPIO_TOUCHSCREEN_RESET_L 1; EvGpioSet GPIO_VCORE_EN 1;
        EvHook HOOK_CHIPSET_RESUME; EvDisableSleep SLEEP_MASK_AP_RUN;
        EvSleep (15 * MSEC); EvGpioSet GPIO_CPU_PROCHOT (throttle_cpu w);
        EvGpioSet GPIO_PCH_SYS_PWROK 1; EvGpioSet GPIO_PCH_CORE_PWROK 1;
        EvSleep MSEC;
        EvConsole "power PLTRST# timeout" []; EvButtonRelease]
       ++ force_shutdown_events)).
  { unfold console_command_powerfail, power_handle_state. unfold_m.
    cbn [now set_now set_gpio set_fake_pltrst_timeout].
    unfold power_wait_signals.
    cbn [now set_now set_gpio set_fake_pltrst_timeout]. norm_lines.
    rewrite Hwait. cbn [failed now set_now set_gpio throttle_cpu].
    match goal with
    | |- context [pltrst_poll env 50 0 ?W] =>
        rewrite (pltrst_poll_break env 50 1 0 W)
          by (cbn [now Z.of_nat Pos.of_succ_nat]; first [lia | assumption
               | replace (t1 + 15 * MSEC + 1 * MSEC)
                   with (t1 + 15 * MSEC + MSEC) by lia; assumption])
    end.
    cbn [fake_pltrst_timeout set_now set_gpio now set_fake_pltrst_timeout].
    reflexivity. }
  rewrite Hrun. cbv [result_of world_of events_of fst snd].
  repeat split.
Qed.

Lemma powerfail_fails_next_power_on_witness :
  restart_from_s5
    (world_of (power_handle_state sample_board (steady_env 61 1 0 0) POWER_S3S0
                 (world_of (console_command_powerfail 1 ["powerfail"%string]
                              initial_world)))) = 1
  /\ fake_pltrst_timeout
    (world_of (power_handle_state sample_board (steady_env 61 1 0 0) POWER_S3S0
                 (world_of (console_command_powerfail 1 ["powerfail"%string]
                              initial_world)))) = 0.
Proof.
  destruct (powerfail_fails_next_power_on sample_board (steady_env 61 1 0 0)
              1 ["powerfail"%string] initial_world 3000)
    as [_ [_ [Hflag [Hfake _]]]].
  - reflexivity.
  - reflexivity.
  - split; [exact Hflag | exact Hfake].
Defined.

(** ** Every path of one call *)

Ltac poll_case env :=
  match goal with
  | |- context [pltrst_poll env 50 0 ?W] =>
      let k := fresh "k" in
      let Hk := fresh "Hk" in
      let He := fresh "He" in
      let Hw := fresh "Hw" in
      let Hi := fresh "Hi" in
      let i' := fresh "i'" in
      let w' := fresh "w'" in
      let e' := fresh "e'" in
      destruct (pltrst_poll_spec env 50 0 W) as [k [Hk [He [Hw Hi]]]];
      destruct (pltrst_poll env 50 0 W) as [[i' w'] e'];
      cbv [events_of world_of result_of fst snd] in He, Hw, Hi;
      subst e' w'
  end.

(** Splits a goal about [power_handle_state b env s w] into one goal per
    path through the switch. *)
Ltac handle_state_paths env s :=
  destruct s; unfold power_handle_state; unfold_m; cbn [now set_now set_gpio];
  [ idtac
  | destruct (_ =? 1)
  | case_has; [destruct (_ =? 1); [| destruct (_ =? 0)] |]
  | case_has; [destruct (_ =? 0) |]
  | case_wait
  | case_wait; [case_wait |]
  | case_wait; [poll_case env; destruct (_ && _) |]
  | destruct (CONFIG_USB_PORT_POWER_IN_S3 _); [destruct (truthy _) |]
  | destruct (truthy (restart_from_s5 _));
      [| try destruct (truthy (pause_in_s5 _))]
  | idtac ];
  cbn [app negb].

Lemma hooks_fired_app (l1 l2 : list event) :
  hooks_fired (l1 ++ l2) = hooks_fired l1 ++ hooks_fired l2.
Proof. apply flat_map_app. Qed.

Lemma hooks_fired_sleeps (us : Z) (k : nat) :
  hooks_fired (repeat (EvSleep us) k) = [].
Proof. induction k as [|k IH]; [reflexivity | exact IH]. Qed.

Lemma gpio_writes_app (l1 l2 : list event) :
  gpio_writes (l1 ++ l2) = gpio_writes l1 ++ gpio_writes l2.
Proof. apply flat_map_app. Qed.

Lemma gpio_writes_sleeps (us : Z) (k : nat) :
  gpio_writes (repeat (EvSleep us) k) = [].
Proof. induction k as [|k IH]; [reflexivity | exact IH]. Qed.

(** X5: One call moves along an edge of the state graph: the state returned
    is one of the successors the switch allows for the state given.  In
    particular POWER_S0 is only entered from the S3->S0 script, nothing
    leaves POWER_G3, and no transition returns itself. *)
Theorem power_handle_state_follows_graph
  (b : board) (env : environment) (s : power_state) (w : world) :
  In (result_of (power_handle_state b env s w)) (successors s)
  /\ (result_of (power_handle_state b env s w) = POWER_S0 ->
      s = POWER_S0 \/ s = POWER_S3S0)
  /\ (is_steady s = false ->
      result_of (power_handle_state b env s w) <> s).
Proof.
  handle_state_paths env s; cbn [successors is_steady In];
    (split; [tauto |]); (split; [intros H; first [discriminate H | tauto] |]);
    intros H; first [discriminate H | discriminate].
Qed.

Lemma power_handle_state_follows_graph_witness :
  result_of (power_handle_state sample_board (steady_env 0 0 0 0) POWER_S5G3
               initial_world) <> POWER_S5G3.
Proof.
  apply (power_handle_state_follows_graph sample_board (steady_env 0 0 0 0)
           POWER_S5G3 initial_world).
  reflexivity.
Defined.

(** X6: A call fires at most one hook, decided by the edge it takes: STARTUP
    exactly when S5->S3 reaches S3, RESUME exactly when S3->S0 reaches
    S0 (also when the platform reset then times out), SUSPEND on every
    S0->S3, SHUTDOWN on every S3->S5; steady states and failed
    power-ups fire none. *)
Theorem power_handle_state_hooks
  (b : board) (env : environment) (s : power_state) (w : world) :
  hooks_fired (events_of (power_handle_state b env s w))
  = hook_of_transition s (result_of (power_handle_state b env s w)).
Proof.
  handle_state_paths env s; try reflexivity;
    cbn [hooks_fired flat_map app hook_of_transition];
    fold hooks_fired;
    rewrite hooks_fired_app, hooks_fired_sleeps; reflexivity.
Qed.

(** Closes a goal saying that line [g], known to differ from the lines
    written, kept its level. *)
Ltac other_line g :=
  cbn [gpio set_gpio set_now set_restart_from_s5 set_fake_pltrst_timeout];
  repeat match goal with
         | |- context [gpio_signal_eq_dec ?x g] =>
             destruct (gpio_signal_eq_dec x g); [congruence |]
         end;
  reflexivity.

(** X7: Calls in a steady state return at once: the clock does not move, no
    sleep or delay is made, no hook fires and no static flag changes.
    The only lines such a call can drive are the touchscreen reset (in
    S3) and the two lines of [chipset_force_shutdown]. *)
Theorem steady_states_do_not_wait
  (b : board) (env : environment) (s : power_state) (w : world) :
  is_steady s = true ->
  now (world_of (power_handle_state b env s w)) = now w
  /\ existsb is_delay (events_of (power_handle_state b env s w)) = false
  /\ hooks_fired (events_of (power_handle_state b env s w)) = []
  /\ restart_from_s5 (world_of (power_handle_state b env s w))
     = restart_from_s5 w
  /\ fake_pltrst_timeout (world_of (power_handle_state b env s w))
     = fake_pltrst_timeout w
  /\ (forall g, g <> GPIO_TOUCHSCREEN_RESET_L -> g <> GPIO_PCH_SYS_PWROK ->
                g <> GPIO_PCH_RSMRST_L ->
                gpio (world_of (power_handle_state b env s w)) g = gpio w g).
Proof.
  intros Hs.
  destruct s; try discriminate Hs; clear Hs;
    unfold power_handle_state; unfold_m; cbn [now set_now set_gpio].
  - repeat split.
  - destruct (_ =? 1); repeat split.
  - case_has.
    + destruct (_ =? 1); [| destruct (_ =? 0)]; repeat split;
        intros g H1 H2 H3; other_line g.
    + repeat split. intros g H1 H2 H3. other_line g.
  - case_has.
    + destruct (_ =? 0); repeat split.
    + repeat split. intros g H1 H2 H3. other_line g.
Qed.

Lemma steady_states_do_not_wait_witness :
  now (world_of (power_handle_state sample_board (steady_env 0 0 0 0) POWER_S3
                   initial_world)) = 0
  /\ existsb is_delay
       (events_of (power_handle_state sample_board (steady_env 0 0 0 0)
                     POWER_S3 initial_world)) = false.
Proof.
  destruct (steady_states_do_not_wait sample_board (steady_env 0 0 0 0)
              POWER_S3 initial_world) as [Hnow [Hdelay _]].
  - reflexivity.
  - split; [exact Hnow | exact Hdelay].
Defined.

(** ** Runs of calls *)

Lemma world_of_bind {A B} (m : M A) (f : A -> M B) (w : world) :
  world_of (bind m f w) = world_of (f (result_of (m w)) (world_of (m w))).
Proof.
  unfold bind, world_of, result_of.
  destruct (m w) as [[a w1] e1]. cbn [fst snd].
  destruct (f a w1) as [[r w2] e2]. reflexivity.
Qed.

Lemma events_of_bind {A B} (m : M A) (f : A -> M B) (w : world) :
  events_of (bind m f w)
  = events_of (m w) ++ events_of (f (result_of (m w)) (world_of (m w))).
Proof.
  unfold bind, world_of, result_of, events_of.
  destruct (m w) as [[a w1] e1]. cbn [fst snd].
  destruct (f a w1) as [[r w2] e2]. reflexivity.
Qed.

Lemma result_of_bind {A B} (m : M A) (f : A -> M B) (w : world) :
  result_of (bind m f w)
  = result_of (f (result_of (m w)) (world_of (m w))).
Proof.
  unfold bind, world_of, result_of.
  destruct (m w) as [[a w1] e1]. cbn [fst snd].
  destruct (f a w1) as [[r w2] e2]. reflexivity.
Qed.

(** What one call of [power_handle_state] can do to the static flags. *)
Lemma power_handle_state_flags
  (b : board) (env : environment) (s : power_state) (w : world) :
  throttle_cpu (world_of (power_handle_state b env s w)) = throttle_cpu w
  /\ pause_in_s5 (world_of (power_handle_state b env s w)) = pause_in_s5 w
  /\ (restart_from_s5 (world_of (power_handle_state b env s w))
      = restart_from_s5 w
      \/ restart_from_s5 (world_of (power_handle_state b env s w)) = 0
      \/ restart_from_s5 (world_of (power_handle_state b env s w)) = 1)
  /\ (fake_pltrst_timeout (world_of (power_handle_state b env s w))
      = fake_pltrst_timeout w
      \/ fake_pltrst_timeout (world_of (power_handle_state b env s w)) = 0).
Proof.
  handle_state_paths env s;
    cbn [throttle_cpu pause_in_s5 restart_from_s5 fake_pltrst_timeout
           set_gpio set_now set_restart_from_s5 set_fake_pltrst_timeout];
    repeat split; auto.
Qed.

(** X8: The static flags over any run of calls into the module, in any order
    and with any arguments: [throttle_cpu] never changes (nothing in the
    module assigns it, [chipset_throttle_cpu] included, so the S3->S0
    script always drives PROCHOT with the value it started with), and
    [restart_from_s5] and [fake_pltrst_timeout] stay 0 or 1 once they
    are. *)
Theorem static_flags_over_runs
  (b : board) (env : environment) (parse_bool : string -> option bool)
  (EC_GSV_SET sizeof_response : Z) (cs : list module_call) (w : world) :
  throttle_cpu
    (world_of (run_calls b env parse_bool EC_GSV_SET sizeof_response cs w))
  = throttle_cpu w
  /\ (restart_from_s5 w = 0 \/ restart_from_s5 w = 1 ->
      restart_from_s5
        (world_of (run_calls b env parse_bool EC_GSV_SET sizeof_response cs w))
      = 0
      \/ restart_from_s5
        (world_of (run_calls b env parse_bool EC_GSV_SET sizeof_response cs w))
      = 1)
  /\ (fake_pltrst_timeout w = 0 \/ fake_pltrst_timeout w = 1 ->
      fake_pltrst_timeout
        (world_of (run_calls b env parse_bool EC_GSV_SET sizeof_response cs w))
      = 0
      \/ fake_pltrst_timeout
        (world_of (run_calls b env parse_bool EC_GSV_SET sizeof_response cs w))
      = 1).
Proof.
  revert w. induction cs as [|c cs IH]; intros w.
  - cbn. tauto.
  - cbn [run_calls]. rewrite world_of_bind.
    set (w1 := world_of (run_call b env parse_bool EC_GSV_SET sizeof_response
                           c w)).
    assert (Hc : throttle_cpu w1 = throttle_cpu w
                 /\ (restart_from_s5 w1 = restart_from_s5 w
                     \/ restart_from_s5 w1 = 0 \/ restart_from_s5 w1 = 1)
                 /\ (fake_pltrst_timeout w1 = fake_pltrst_timeout w
                     \/ fake_pltrst_timeout w1 = 0
                     \/ fake_pltrst_timeout w1 = 1)).
    { subst w1. destruct c; cbn [run_call].
      - repeat split; auto.
      - unfold chipset_reset. unfold_m.
        destruct (truthy _); [destruct (_ =? 0) |]; repeat split; auto.
      - unfold chipset_throttle_cpu. unfold_m.
        destruct (truthy _); repeat split; auto.
      - unfold power_chipset_init. unfold_m.
        destruct (truthy _); [destruct (_ =? _) |]; repeat split; auto.
      - rewrite world_of_bind. cbn [ret world_of fst snd].
        pose proof (power_handle_state_flags b env s w) as [Ht [_ [Hr Hf]]].
        repeat split; [exact Ht | exact Hr | tauto].
      - unfold host_command_gsv. unfold_m.
        destruct (truthy _); repeat split; auto.
      - unfold console_command_gsv, parse_bool_pause_in_s5. unfold_m.
        destruct (1 <? argc); [destruct (parse_bool _) |];
          repeat split; auto.
      - repeat split; auto. }
    destruct Hc as [Ht [Hr Hf]].
    destruct (IH w1) as [IHt [IHr IHf]].
    split; [congruence |].
    split; intros H0; [apply IHr | apply IHf];
      [destruct Hr as [-> | Hr] | destruct Hf as [-> | Hf]]; tauto.
Qed.

Lemma static_flags_over_runs_witness :
  restart_from_s5
    (world_of (run_calls sample_board (steady_env 61 1 1 0) parse_on_off
                 2147483648 8
                 [CallPowerfail 1 ["powerfail"%string];
                  CallHandleState POWER_S3S0; CallThrottle 1 1]
                 initial_world)) = 0
  \/ restart_from_s5
    (world_of (run_calls sample_board (steady_env 61 1 1 0) parse_on_off
                 2147483648 8
                 [CallPowerfail 1 ["powerfail"%string];
                  CallHandleState POWER_S3S0; CallThrottle 1 1]
                 initial_world)) = 1.
Proof.
  apply (static_flags_over_runs sample_board (steady_env 61 1 1 0) parse_on_off
           2147483648 8
           [CallPowerfail 1 ["powerfail"%string];
            CallHandleState POWER_S3S0; CallThrottle 1 1] initial_world).
  left. reflexivity.
Defined.

(** ** The event list accounts for every GPIO level *)

Lemma level_after_app (g : gpio_signal) (ws1 ws2 : list (gpio_signal * Z)) :
  forall v, level_after g (ws1 ++ ws2) v
            = level_after g ws2 (level_after g ws1 v).
Proof.
  induction ws1 as [|[g' v'] ws1 IH]; intros v; cbn [app level_after].
  - reflexivity.
  - apply IH.
Qed.

Lemma tracked_ret {A} (a : A) : gpio_tracked (ret a).
Proof. intros w g. reflexivity. Qed.

Lemma tracked_bind {A B} (m : M A) (f : A -> M B) :
  gpio_tracked m -> (forall a, gpio_tracked (f a)) -> gpio_tracked (bind m f).
Proof.
  intros Hm Hf w g.
  rewrite world_of_bind, events_of_bind, gpio_writes_app, level_after_app.
  rewrite Hf, Hm. reflexivity.
Qed.

Lemma tracked_gpio_set_level (g0 : gpio_signal) (v : Z) :
  gpio_tracked (gpio_set_level g0 v).
Proof. intros w g. reflexivity. Qed.

Lemma tracked_read {A} (f : world -> A) : gpio_tracked (read f).
Proof. intros w g. reflexivity. Qed.

Lemma tracked_modify (f : world -> world) :
  (forall w, gpio (f w) = gpio w) -> gpio_tracked (modify f).
Proof. intros H w g. cbn. rewrite H. reflexivity. Qed.

Lemma tracked_emit (e : event) :
  gpio_writes [e] = [] -> gpio_tracked (emit e).
Proof.
  intros H w g. unfold emit, events_of, world_of. cbn [fst snd].
  rewrite H. reflexivity.
Qed.

Lemma tracked_usleep (us : Z) : gpio_tracked (usleep us).
Proof. intros w g. reflexivity. Qed.

Lemma tracked_udelay (us : Z) : gpio_tracked (udelay us).
Proof. intros w g. reflexivity. Qed.

Lemma tracked_power_has_signals (env : environment) (want : Z) :
  gpio_tracked (power_has_signals env want).
Proof.
  intros w g. unfold power_has_signals.
  destruct (has_all _ _); reflexivity.
Qed.

Lemma tracked_power_wait_signals (env : environment) (want : Z) :
  gpio_tracked (power_wait_signals env want).
Proof.
  intros w g. unfold power_wait_signals.
  destruct (wait_all _ _ _ _ _); reflexivity.
Qed.

Create HintDb tracked.

#[local] Hint Resolve tracked_ret tracked_gpio_set_level tracked_read
  tracked_usleep tracked_udelay tracked_power_has_signals
  tracked_power_wait_signals : tracked.

(** Breaks a [gpio_tracked] goal down along binds, conditionals and the
    primitives. *)
Ltac tracked_step :=
  match goal with
  | |- gpio_tracked (bind _ _) => apply tracked_bind; [| intros ?]
  | |- gpio_tracked (if ?c then _ else _) => destruct c
  | |- gpio_tracked (match ?x with _ => _ end) => destruct x
  | |- gpio_tracked (modify _) => apply tracked_modify; intros ?; reflexivity
  | |- gpio_tracked (emit _) => apply tracked_emit; reflexivity
  | |- gpio_tracked _ => solve [auto with tracked]
  end.

Ltac tracked :=
  unfold msleep, CPRINTS, ccprintf, hook_notify, wireless_set_state,
    disable_sleep, enable_sleep, power_button_pch_release,
    power_button_pch_pulse, lid_is_open, lpc_get_pltrst_asserted,
    usb_charge_ports_enabled, system_jumped_to_this_image, power_get_signals,
    gpio_get_level;
  repeat tracked_step.

Lemma tracked_chipset_force_shutdown : gpio_tracked chipset_force_shutdown.
Proof. unfold chipset_force_shutdown. tracked. Qed.

Lemma tracked_pltrst_poll (env : environment) (n : nat) :
  forall i, gpio_tracked (pltrst_poll env n i).
Proof.
  induction n as [|n IH]; intros i; cbn [pltrst_poll].
  - apply tracked_ret.
  - apply tracked_bind; [apply tracked_usleep | intros _].
    apply tracked_bind; [apply tracked_read | intros p].
    destruct (p =? 0); [apply tracked_ret | apply IH].
Qed.

#[local] Hint Resolve tracked_chipset_force_shutdown tracked_pltrst_poll
  : tracked.

Lemma tracked_power_handle_state
  (b : board) (env : environment) (s : power_state) :
  gpio_tracked (power_handle_state b env s).
Proof. destruct s; unfold power_handle_state; tracked. Qed.

(** ** Successive calls *)

Lemma wait_all_ready
  (env : environment) (want : Z) (lines : gpio_signal -> Z) (t : Z)
  (fuel : nat) :
  has_all (in_signals env lines t) want = true ->
  wait_all env want lines t fuel = Some t.
Proof. intros H. destruct fuel; cbn [wait_all]; rewrite H; reflexivity. Qed.

Lemma power_wait_signals_ready (env : environment) (want : Z) (w : world) :
  has_all (in_signals env (gpio w) (now w)) want = true ->
  power_wait_signals env want w = (EC_SUCCESS, set_now (now w) w, []).
Proof.
  intros H. unfold power_wait_signals.
  rewrite (wait_all_ready env want (gpio w) (now w) (wait_timeout env) H).
  reflexivity.
Qed.

Lemma repeat_handle_state_step
  (b : board) (env : environment) (n : nat) (s s' : power_state) (w : world)
  (e : list event) :
  result_of (power_handle_state b env s w) = s' ->
  events_of (power_handle_state b env s w) = e ->
  repeat_handle_state b env (S n) s w
  = (result_of (repeat_handle_state b env n s'
                  (world_of (power_handle_state b env s w))),
     world_of (repeat_handle_state b env n s'
                 (world_of (power_handle_state b env s w))),
     e ++ events_of (repeat_handle_state b env n s'
                       (world_of (power_handle_state b env s w)))).
Proof.
  intros Hs He. cbn [repeat_handle_state]. unfold bind.
  unfold result_of, events_of, world_of in *.
  destruct (power_handle_state b env s w) as [[a w1] e1].
  cbn [fst snd] in *. subst a e1.
  destruct (repeat_handle_state b env n s' w1) as [[r w2] e2]. reflexivity.
Qed.

Lemma tracked_repeat_handle_state (b : board) (env : environment) (n : nat) :
  forall s, gpio_tracked (repeat_handle_state b env n s).
Proof.
  induction n as [|n IH]; intros s; cbn [repeat_handle_state].
  - apply tracked_ret.
  - apply tracked_bind; [apply tracked_power_handle_state | exact IH].
Qed.

Lemma fake_stays_clear
  (b : board) (env : environment) (s : power_state) (w : world) :
  fake_pltrst_timeout w = 0 ->
  fake_pltrst_timeout (world_of (power_handle_state b env s w)) = 0.
Proof.
  intros H. destruct (power_handle_state_flags b env s w) as [_ [_ [_ Hf]]].
  destruct Hf as [Hf | Hf]; congruence.
Qed.

Section PowerUp.

Variable b : board.
Variable env : environment.

(** A healthy platform that wants to be on: the rails report good, both
    sleep lines are deasserted, the platform reset line is released. *)
Hypothesis rails_S5 :
  forall lines t, has_all (in_signals env lines t) (IN_PGOOD_S5 b) = true.
Hypothesis rails_S0 :
  forall lines t, has_all (in_signals env lines t) (IN_PGOOD_S0 b) = true.
Hypothesis slp_s3_high : forall t, pin_level env GPIO_PCH_SLP_S3_L t = 1.
Hypothesis slp_s4_high : forall t, pin_level env GPIO_PCH_SLP_S4_L t = 1.
Hypothesis pltrst_released : forall t, pltrst_asserted env t = 0.

Lemma up_G3S5 (w : world) :
  result_of (power_handle_state b env POWER_G3S5 w) = POWER_S5
  /\ events_of (power_handle_state b env POWER_G3S5 w)
     = [EvSleep (10 * MSEC); EvGpioSet GPIO_SUSP_VR_EN 1;
        EvGpioSet GPIO_PCH_RSMRST_L 1; EvSleep (10 * MSEC)].
Proof.
  unfold power_handle_state. unfold_m. cbn [now set_now set_gpio].
  rewrite power_wait_signals_ready by apply rails_S5.
  split; reflexivity.
Qed.

Lemma up_S5 (w : world) :
  result_of (power_handle_state b env POWER_S5 w) = POWER_S5S3
  /\ events_of (power_handle_state b env POWER_S5 w) = [].
Proof.
  unfold power_handle_state. unfold_m. rewrite slp_s4_high.
  split; reflexivity.
Qed.

Lemma up_S5S3 (w : world) :
  result_of (power_handle_state b env POWER_S5S3 w) = POWER_S3
  /\ events_of (power_handle_state b env POWER_S5S3 w)
     = [EvGpioSet GPIO_PP1350_EN 1; EvGpioSet GPIO_ENABLE_TOUCHPAD 1;
        EvHook HOOK_CHIPSET_STARTUP].
Proof.
  unfold power_handle_state. unfold_m.
  rewrite power_wait_signals_ready by apply rails_S5.
  cbn [failed now set_now set_gpio].
  rewrite power_wait_signals_ready by apply rails_S5.
  split; reflexivity.
Qed.

Lemma up_S3 (w : world) :
  result_of (power_handle_state b env POWER_S3 w) = POWER_S3S0
  /\ events_of (power_handle_state b env POWER_S3 w)
     = [EvGpioSet GPIO_TOUCHSCREEN_RESET_L (lid_open env (now w))].
Proof.
  unfold power_handle_state, power_has_signals. unfold_m.
  cbn [now set_now set_gpio].
  change (IN_PGOOD_S3 b) with (IN_PGOOD_S5 b).
  rewrite rails_S5. cbn [truthy negb Z.eqb]. rewrite slp_s3_high.
  split; reflexivity.
Qed.

Lemma up_S3S0 (w : world) :
  fake_pltrst_timeout w = 0 ->
  result_of (power_handle_state b env POWER_S3S0 w) = POWER_S0
  /\ events_of (power_handle_state b env POWER_S3S0 w)
     = [EvGpioSet GPIO_PP5000_EN 1; EvSleep (3 * MSEC);
        EvGpioSet GPIO_PP3300_DX_EN 1; EvWireless WIRELESS_ON;
        EvGpioSet GPIO_TOUCHSCREEN_RESET_L 1; EvGpioSet GPIO_VCORE_EN 1;
        EvHook HOOK_CHIPSET_RESUME; EvDisableSleep SLEEP_MASK_AP_RUN;
        EvSleep (15 * MSEC); EvGpioSet GPIO_CPU_PROCHOT (throttle_cpu w);
        EvGpioSet GPIO_PCH_SYS_PWROK 1; EvGpioSet GPIO_PCH_CORE_PWROK 1;
        EvSleep MSEC; EvConsole "power PLTRST# deasserted" []].
Proof.
  intros Hfake.
  unfold power_handle_state. unfold_m. cbn [now set_now set_gpio].
  rewrite power_wait_signals_ready by apply rails_S0.
  cbn [failed now set_now set_gpio throttle_cpu pltrst_poll].
  unfold_m. cbn [now set_now set_gpio]. rewrite pltrst_released.
  cbn [Z.eqb fake_pltrst_timeout set_now set_gpio]. rewrite Hfake.
  split; reflexivity.
Qed.

Lemma up_S0 (w : world) :
  power_handle_state b env POWER_S0 w = (POWER_S0, w, []).
Proof.
  unfold power_handle_state, power_has_signals. unfold_m.
  rewrite rails_S0. cbn [truthy negb Z.eqb]. rewrite slp_s3_high.
  reflexivity.
Qed.

Lemma up_stays_S0 (n : nat) (w : world) :
  repeat_handle_state b env n POWER_S0 w = (POWER_S0, w, []).
Proof.
  induction n as [|n IH]; cbn [repeat_handle_state].
  - reflexivity.
  - unfold bind. rewrite up_S0, IH. reflexivity.
Qed.

(** X10: Power-up end to end.  On a healthy platform (rails good, both sleep
    lines deasserted, platform reset released, no fake timeout pending)
    the power task's successive calls starting at G3->S5 reach POWER_S0
    at the fifth call and stay there for any number of further calls.
    Over the whole run exactly two hooks fire, STARTUP then RESUME, no
    fault is detected, [chipset_force_shutdown] is never called, and at
    the end every enable, reset and power-OK line the scripts drive is
    high, with PROCHOT at [throttle_cpu]. *)
Theorem power_up_reaches_S0 (n : nat) (w : world) :
  fake_pltrst_timeout w = 0 ->
  result_of (repeat_handle_state b env (5 + n) POWER_G3S5 w) = POWER_S0
  /\ hooks_fired (events_of (repeat_handle_state b env (5 + n) POWER_G3S5 w))
     = [HOOK_CHIPSET_STARTUP; HOOK_CHIPSET_RESUME]
  /\ fault_detected
       (events_of (repeat_handle_state b env (5 + n) POWER_G3S5 w)) = false
  /\ calls_force_shutdown
       (events_of (repeat_handle_state b env (5 + n) POWER_G3S5 w)) = false
  /\ map (gpio (world_of (repeat_handle_state b env (5 + n) POWER_G3S5 w)))
       [GPIO_SUSP_VR_EN; GPIO_PCH_RSMRST_L; GPIO_PP1350_EN;
        GPIO_ENABLE_TOUCHPAD; GPIO_PP5000_EN; GPIO_PP3300_DX_EN;
        GPIO_TOUCHSCREEN_RESET_L; GPIO_VCORE_EN; GPIO_PCH_SYS_PWROK;
        GPIO_PCH_CORE_PWROK; GPIO_CPU_PROCHOT]
     = [1; 1; 1; 1; 1; 1; 1; 1; 1; 1; throttle_cpu w].
Proof.
  intros Hfake.
  set (w1 := world_of (power_handle_state b env POWER_G3S5 w)).
  set (w2 := world_of (power_handle_state b env POWER_S5 w1)).
  set (w3 := world_of (power_handle_state b env POWER_S5S3 w2)).
  set (w4 := world_of (power_handle_state b env POWER_S3 w3)).
  assert (Hf4 : fake_pltrst_timeout w4 = 0)
    by (repeat apply fake_stays_clear; exact Hfake).
  assert (Ht4 : throttle_cpu w4 = throttle_cpu w).
  { subst w4 w3 w2 w1.
    repeat (etransitivity;
            [apply (proj1 (power_handle_state_flags b env _ _)) |]).
    reflexivity. }
  assert (Hrun :
    result_of (repeat_handle_state b env (5 + n) POWER_G3S5 w) = POWER_S0
    /\ events_of (repeat_handle_state b env (5 + n) POWER_G3S5 w)
       = [EvSleep (10 * MSEC); EvGpioSet GPIO_SUSP_VR_EN 1;
          EvGpioSet GPIO_PCH_RSMRST_L 1; EvSleep (10 * MSEC);
          EvGpioSet GPIO_PP1350_EN 1; EvGpioSet GPIO_ENABLE_TOUCHPAD 1;
          EvHook HOOK_CHIPSET_STARTUP;
          EvGpioSet GPIO_TOUCHSCREEN_RESET_L (lid_open env (now w3));
          EvGpioSet GPIO_PP5000_EN 1; EvSleep (3 * MSEC);
          EvGpioSet GPIO_PP3300_DX_EN 1; EvWireless WIRELESS_ON;
          EvGpioSet GPIO_TOUCHSCREEN_RESET_L 1; EvGpioSet GPIO_VCORE_EN 1;
          EvHook HOOK_CHIPSET_RESUME; EvDisableSleep SLEEP_MASK_AP_RUN;
          EvSleep (15 * MSEC); EvGpioSet GPIO_CPU_PROCHOT (throttle_cpu w);
          EvGpioSet GPIO_PCH_SYS_PWROK 1; EvGpioSet GPIO_PCH_CORE_PWROK 1;
          EvSleep MSEC; EvConsole "power PLTRST# deasserted" []]).
  { cbn [Nat.add].
    rewrite (repeat_handle_state_step b env _ _ _ w _
               (proj1 (up_G3S5 w)) (proj2 (up_G3S5 w))).
    fold w1.
    rewrite (repeat_handle_state_step b env _ _ _ w1 _
               (proj1 (up_S5 w1)) (proj2 (up_S5 w1))).
    fold w2.
    rewrite (repeat_handle_state_step b env _ _ _ w2 _
               (proj1 (up_S5S3 w2)) (proj2 (up_S5S3 w2))).
    fold w3.
    rewrite (repeat_handle_state_step b env _ _ _ w3 _
               (proj1 (up_S3 w3)) (proj2 (up_S3 w3))).
    fold w4.
    rewrite (repeat_handle_state_step b env _ _ _ w4 _
               (proj1 (up_S3S0 w4 Hf4)) (proj2 (up_S3S0 w4 Hf4))).
    rewrite up_stays_S0, Ht4.
    cbv [result_of events_of world_of fst snd]. cbn [app].
    split; reflexivity. }
  destruct Hrun as [Hres Hev].
  split; [exact Hres |].
  split; [rewrite Hev; reflexivity |].
  split; [rewrite Hev; reflexivity |].
  split; [rewrite Hev; reflexivity |].
  cbn [map].
  rewrite !(tracked_repeat_handle_state b env (5 + n) POWER_G3S5 w), Hev.
  reflexivity.
Qed.

End PowerUp.

Lemma power_up_reaches_S0_witness :
  result_of (repeat_handle_state sample_board (steady_env 61 1 0 0) (5 + 3)
               POWER_G3S5 initial_world) = POWER_S0
  /\ hooks_fired
       (events_of (repeat_handle_state sample_board (steady_env 61 1 0 0)
                     (5 + 3) POWER_G3S5 initial_world))
     = [HOOK_CHIPSET_STARTUP; HOOK_CHIPSET_RESUME].
Proof.
  destruct (power_up_reaches_S0 sample_board (steady_env 61 1 0 0))
    with (n := 3%nat) (w := initial_world) as [Hres [Hhooks _]].
  - intros t. reflexivity.
  - intros t. reflexivity.
  - intros t. reflexivity.
  - intros t. reflexivity.
  - intros t. reflexivity.
  - reflexivity.
  - split; [exact Hres | exact Hhooks].
Defined.

Lemma restart_kept
  (b : board) (env : environment) (s : power_state) (w : world) :
  s <> POWER_S3S0 -> s <> POWER_S3S5 ->
  restart_from_s5 (world_of (power_handle_state b env s w))
  = restart_from_s5 w.
Proof.
  intros H0 H5.
  destruct s; try contradiction;
    unfold power_handle_state; unfold_m; cbn [now set_now set_gpio].
  - reflexivity.
  - destruct (_ =? 1); reflexivity.
  - case_has; [| reflexivity].
    destruct (_ =? 1); [reflexivity |]. destruct (_ =? 0); reflexivity.
  - case_has; [| reflexivity]. destruct (_ =? 0); reflexivity.
  - case_wait; reflexivity.
  - case_wait; [| reflexivity]. case_wait; reflexivity.
  - destruct (CONFIG_USB_PORT_POWER_IN_S3 b);
      [destruct (truthy _) |]; reflexivity.
  - reflexivity.
Qed.

Section PowerDown.

Variable b : board.
Variable env : environment.

(** The host has asked to go down: both sleep lines are asserted while
    the rails still report good. *)
Hypothesis rails_S5 :
  forall lines t, has_all (in_signals env lines t) (IN_PGOOD_S5 b) = true.
Hypothesis rails_S0 :
  forall lines t, has_all (in_signals env lines t) (IN_PGOOD_S0 b) = true.
Hypothesis slp_s3_low : forall t, pin_level env GPIO_PCH_SLP_S3_L t = 0.
Hypothesis slp_s4_low : forall t, pin_level env GPIO_PCH_SLP_S4_L t = 0.

Lemma down_S0 (w : world) :
  result_of (power_handle_state b env POWER_S0 w) = POWER_S0S3
  /\ events_of (power_handle_state b env POWER_S0 w) = [].
Proof.
  unfold power_handle_state, power_has_signals. unfold_m.
  rewrite rails_S0. cbn [truthy negb Z.eqb]. rewrite slp_s3_low.
  split; reflexivity.
Qed.

Lemma down_S0S3 (w : world) :
  result_of (power_handle_state b env POWER_S0S3 w) = POWER_S3
  /\ exists tail,
       (tail = [] \/ tail = [EvGpioSet GPIO_PP5000_EN 0])
       /\ events_of (power_handle_state b env POWER_S0S3 w)
          = [EvHook HOOK_CHIPSET_SUSPEND; EvGpioSet GPIO_PCH_SYS_PWROK 0;
             EvGpioSet GPIO_PCH_CORE_PWROK 0; EvUdelay 1;
             EvGpioSet GPIO_VCORE_EN 0; EvWireless WIRELESS_SUSPEND;
             EvEnableSleep SLEEP_MASK_AP_RUN; EvGpioSet GPIO_CPU_PROCHOT 0;
             EvSleep (7 * MSEC); EvGpioSet GPIO_PP3300_DX_EN 0] ++ tail.
Proof.
  unfold power_handle_state. unfold_m. cbn [now set_now set_gpio].
  destruct (CONFIG_USB_PORT_POWER_IN_S3 b); [destruct (truthy _) |];
    (split; [reflexivity |]).
  - exists []. split; [left |]; reflexivity.
  - exists [EvGpioSet GPIO_PP5000_EN 0]. split; [right |]; reflexivity.
  - exists [EvGpioSet GPIO_PP5000_EN 0]. split; [right |]; reflexivity.
Qed.

Lemma down_S3 (w : world) :
  result_of (power_handle_state b env POWER_S3 w) = POWER_S3S5
  /\ events_of (power_handle_state b env POWER_S3 w)
     = [EvGpioSet GPIO_TOUCHSCREEN_RESET_L (lid_open env (now w))].
Proof.
  unfold power_handle_state, power_has_signals. unfold_m.
  cbn [now set_now set_gpio].
  change (IN_PGOOD_S3 b) with (IN_PGOOD_S5 b).
  rewrite rails_S5. cbn [truthy negb Z.eqb].
  rewrite slp_s3_low. cbn [Z.eqb]. rewrite slp_s4_low.
  split; reflexivity.
Qed.

Lemma down_S3S5 (w : world) :
  restart_from_s5 w = 0 ->
  result_of (power_handle_state b env POWER_S3S5 w)
  = (if truthy (pause_in_s5 w) then POWER_S5 else POWER_S5G3)
  /\ events_of (power_handle_state b env POWER_S3S5 w)
     = [EvHook HOOK_CHIPSET_SHUTDOWN; EvGpioSet GPIO_PP5000_EN 0;
        EvWireless WIRELESS_OFF; EvGpioSet GPIO_ENABLE_TOUCHPAD 0;
        EvGpioSet GPIO_TOUCHSCREEN_RESET_L 0; EvGpioSet GPIO_PP1350_EN 0].
Proof.
  intros Hr. apply truthy_false in Hr.
  unfold power_handle_state. unfold_m.
  cbn [restart_from_s5 pause_in_s5 set_gpio]. rewrite Hr.
  split; reflexivity.
Qed.

Lemma down_stays_S5 (n : nat) (w : world) :
  repeat_handle_state b env n POWER_S5 w = (POWER_S5, w, []).
Proof.
  induction n as [|n IH]; cbn [repeat_handle_state].
  - reflexivity.
  - unfold bind, power_handle_state at 1. unfold_m. rewrite slp_s4_low.
    cbn [Z.eqb]. rewrite IH. reflexivity.
Qed.

Lemma stays_G3 (n : nat) (w : world) :
  repeat_handle_state b env n POWER_G3 w = (POWER_G3, w, []).
Proof.
  induction n as [|n IH]; cbn [repeat_handle_state].
  - reflexivity.
  - unfold bind. cbn [power_handle_state ret]. rewrite IH. reflexivity.
Qed.

(** X11: Orderly shutdown end to end.  With both sleep lines asserted, the
    rails still good and no restart pending, the successive calls from
    POWER_S0 go through S0->S3, S3 and S3->S5 and settle in POWER_S5 if
    [pause_in_s5] is set, in POWER_G3 if it is clear, and stay there.
    SUSPEND then SHUTDOWN are the only hooks, no fault is detected and
    [chipset_force_shutdown] is not called.  At the end both PWROK
    lines, VCORE, PROCHOT, the 3.3 V, 5 V and RAM rails and the touchpad
    and touchscreen lines are all low, whatever the USB port power
    option did in S0->S3; when the run ends in G3, RSMRST# and the
    suspend regulator are low as well. *)
Theorem shutdown_reaches_S5_or_G3 (n : nat) (w : world) :
  restart_from_s5 w = 0 ->
  result_of (repeat_handle_state b env (6 + n) POWER_S0 w)
  = (if truthy (pause_in_s5 w) then POWER_S5 else POWER_G3)
  /\ hooks_fired (events_of (repeat_handle_state b env (6 + n) POWER_S0 w))
     = [HOOK_CHIPSET_SUSPEND; HOOK_CHIPSET_SHUTDOWN]
  /\ fault_detected
       (events_of (repeat_handle_state b env (6 + n) POWER_S0 w)) = false
  /\ calls_force_shutdown
       (events_of (repeat_handle_state b env (6 + n) POWER_S0 w)) = false
  /\ map (gpio (world_of (repeat_handle_state b env (6 + n) POWER_S0 w)))
       [GPIO_PCH_SYS_PWROK; GPIO_PCH_CORE_PWROK; GPIO_VCORE_EN;
        GPIO_CPU_PROCHOT; GPIO_PP3300_DX_EN; GPIO_PP5000_EN;
        GPIO_ENABLE_TOUCHPAD; GPIO_TOUCHSCREEN_RESET_L; GPIO_PP1350_EN]
     = [0; 0; 0; 0; 0; 0; 0; 0; 0]
  /\ (pause_in_s5 w = 0 ->
      map (gpio (world_of (repeat_handle_state b env (6 + n) POWER_S0 w)))
        [GPIO_PCH_RSMRST_L; GPIO_SUSP_VR_EN] = [0; 0]).
Proof.
  intros Hrestart.
  set (w1 := world_of (power_handle_state b env POWER_S0 w)).
  set (w2 := world_of (power_handle_state b env POWER_S0S3 w1)).
  set (w3 := world_of (power_handle_state b env POWER_S3 w2)).
  set (w4 := world_of (power_handle_state b env POWER_S3S5 w3)).
  assert (Hr3 : restart_from_s5 w3 = 0).
  { subst w3 w2 w1. rewrite !restart_kept by discriminate. exact Hrestart. }
  assert (Hp3 : pause_in_s5 w3 = pause_in_s5 w).
  { subst w3 w2 w1.
    repeat (etransitivity;
            [apply (proj1 (proj2 (power_handle_state_flags b env _ _))) |]).
    reflexivity. }
  destruct (down_S0S3 w1) as [Hs2 [tail [Htail He2]]].
  pose proof (down_S3S5 w3 Hr3) as [Hs4 He4]. rewrite Hp3 in Hs4.
  assert (Hrun : exists rest,
    (rest = [] \/ rest = [EvGpioSet GPIO_PCH_RSMRST_L 0;
                          EvGpioSet GPIO_SUSP_VR_EN 0])
    /\ (pause_in_s5 w = 0 -> rest <> [])
    /\ result_of (repeat_handle_state b env (6 + n) POWER_S0 w)
       = (if truthy (pause_in_s5 w) then POWER_S5 else POWER_G3)
    /\ events_of (repeat_handle_state b env (6 + n) POWER_S0 w)
       = ([EvHook HOOK_CHIPSET_SUSPEND; EvGpioSet GPIO_PCH_SYS_PWROK 0;
           EvGpioSet GPIO_PCH_CORE_PWROK 0; EvUdelay 1;
           EvGpioSet GPIO_VCORE_EN 0; EvWireless WIRELESS_SUSPEND;
           EvEnableSleep SLEEP_MASK_AP_RUN; EvGpioSet GPIO_CPU_PROCHOT 0;
           EvSleep (7 * MSEC); EvGpioSet GPIO_PP3300_DX_EN 0] ++ tail)
         ++ [EvGpioSet GPIO_TOUCHSCREEN_RESET_L (lid_open env (now w2));
             EvHook HOOK_CHIPSET_SHUTDOWN; EvGpioSet GPIO_PP5000_EN 0;
             EvWireless WIRELESS_OFF; EvGpioSet GPIO_ENABLE_TOUCHPAD 0;
             EvGpioSet GPIO_TOUCHSCREEN_RESET_L 0;
             EvGpioSet GPIO_PP1350_EN 0] ++ rest).
  { cbn [Nat.add].
    rewrite (repeat_handle_state_step b env _ _ _ w _
               (proj1 (down_S0 w)) (proj2 (down_S0 w))).
    fold w1.
    rewrite (repeat_handle_state_step b env _ _ _ w1 _ Hs2 He2).
    fold w2.
    rewrite (repeat_handle_state_step b env _ _ _ w2 _
               (proj1 (down_S3 w2)) (proj2 (down_S3 w2))).
    fold w3.
    rewrite (repeat_handle_state_step b env _ _ _ w3 _ Hs4 He4).
    fold w4.
    destruct (truthy (pause_in_s5 w)) eqn:Hp.
    - exists []. rewrite down_stays_S5.
      cbv [result_of events_of world_of fst snd].
      split; [left; reflexivity |].
      split; [intros H0; apply truthy_true in Hp; contradiction |].
      split; [reflexivity |].
      cbn [app]. rewrite <- ?app_assoc. reflexivity.
    - exists [EvGpioSet GPIO_PCH_RSMRST_L 0; EvGpioSet GPIO_SUSP_VR_EN 0].
      rewrite (repeat_handle_state_step b env _ POWER_S5G3 POWER_G3 w4
                 [EvGpioSet GPIO_PCH_RSMRST_L 0; EvGpioSet GPIO_SUSP_VR_EN 0]
                 eq_refl eq_refl).
      rewrite stays_G3.
      cbv [result_of events_of world_of fst snd].
      split; [right; reflexivity |].
      split; [discriminate |].
      split; [reflexivity |].
      cbn [app]. rewrite <- ?app_assoc. reflexivity. }
  destruct Hrun as [rest [Hrest [Hne [Hres Hev]]]].
  split; [exact Hres |].
  assert (Hgpio : forall g,
    gpio (world_of (repeat_handle_state b env (6 + n) POWER_S0 w)) g
    = level_after g
        (gpio_writes (events_of (repeat_handle_state b env (6 + n) POWER_S0 w)))
        (gpio w g))
    by (intros g; apply tracked_repeat_handle_state).
  split; [| split; [| split; [| split]]].
  - rewrite Hev.
    destruct Htail as [-> | ->]; destruct Hrest as [-> | ->]; reflexivity.
  - rewrite Hev.
    destruct Htail as [-> | ->]; destruct Hrest as [-> | ->]; reflexivity.
  - rewrite Hev.
    destruct Htail as [-> | ->]; destruct Hrest as [-> | ->]; reflexivity.
  - cbn [map]. rewrite !Hgpio, Hev.
    destruct Htail as [-> | ->]; destruct Hrest as [-> | ->]; reflexivity.
  - intros H0. specialize (Hne H0).
    cbn [map]. rewrite !Hgpio, Hev.
    destruct Htail as [-> | ->]; destruct Hrest as [-> | ->];
      first [contradiction | reflexivity].
Qed.

End PowerDown.

Lemma shutdown_reaches_S5_or_G3_witness :
  result_of (repeat_handle_state sample_board (steady_env 61 0 0 0) (6 + 2)
               POWER_S0 initial_world) = POWER_S5
  /\ result_of (repeat_handle_state sample_board (steady_env 61 0 0 0) (6 + 2)
               POWER_S0 (set_pause_in_s5 0 initial_world)) = POWER_G3.
Proof.
  split.
  - destruct (shutdown_reaches_S5_or_G3 sample_board (steady_env 61 0 0 0))
      with (n := 2%nat) (w := initial_world) as [Hres _];
      [intros t; reflexivity | intros t; reflexivity | intros t; reflexivity
      | intros t; reflexivity | reflexivity | exact Hres].
  - destruct (shutdown_reaches_S5_or_G3 sample_board (steady_env 61 0 0 0))
      with (n := 2%nat) (w := set_pause_in_s5 0 initial_world) as [Hres _];
      [intros t; reflexivity | intros t; reflexivity | intros t; reflexivity
      | intros t; reflexivity | reflexivity | exact Hres].
Defined.

(** The clock never runs backwards over a call. *)
Lemma clock_moves_forward
  (b : board) (env : environment) (s : power_state) (w : world) :
  now w <= now (world_of (power_handle_state b env s w)).
Proof.
  pose proof (Nat2Z.is_nonneg (wait_timeout env)) as HT.
  handle_state_paths env s;
    cbn [now set_gpio set_now set_restart_from_s5 set_fake_pltrst_timeout];
    unfold MSEC in *; lia.
Qed.

Lemma S0_suspends (b : board) (env : environment) (w : world) :
  has_all (in_signals env (gpio w) (now w)) (IN_PGOOD_S0 b) = true ->
  pin_level env GPIO_PCH_SLP_S3_L (now w) = 0 ->
  power_handle_state b env POWER_S0 w = (POWER_S0S3, w, []).
Proof.
  intros Hrails Hs3.
  unfold power_handle_state, power_has_signals. unfold_m.
  rewrite Hrails. cbn [truthy negb Z.eqb]. rewrite Hs3. reflexivity.
Qed.

Lemma S3_shuts_down (b : board) (env : environment) (w : world) :
  has_all (in_signals env (lines_in_S3 env w) (now w)) (IN_PGOOD_S3 b) = true ->
  pin_level env GPIO_PCH_SLP_S3_L (now w) = 0 ->
  pin_level env GPIO_PCH_SLP_S4_L (now w) = 0 ->
  result_of (power_handle_state b env POWER_S3 w) = POWER_S3S5
  /\ events_of (power_handle_state b env POWER_S3 w)
     = [EvGpioSet GPIO_TOUCHSCREEN_RESET_L (lid_open env (now w))]
  /\ now (world_of (power_handle_state b env POWER_S3 w)) = now w.
Proof.
  intros Hrails Hs3 Hs4.
  unfold power_handle_state, power_has_signals. unfold_m. norm_lines.
  rewrite Hrails. cbn [truthy negb Z.eqb]. norm_lines.
  rewrite Hs3. cbn [Z.eqb]. norm_lines. rewrite Hs4.
  repeat split.
Qed.

Lemma S5_waits (b : board) (env : environment) (n : nat) (w : world) :
  pin_level env GPIO_PCH_SLP_S4_L (now w) = 0 ->
  repeat_handle_state b env n POWER_S5 w = (POWER_S5, w, []).
Proof.
  intros Hs4. induction n as [|n IH]; cbn [repeat_handle_state].
  - reflexivity.
  - unfold bind, power_handle_state at 1. unfold_m. rewrite Hs4.
    cbn [Z.eqb]. rewrite IH. reflexivity.
Qed.

Section Recovery.

Variable b : board.
Variable env : environment.
Variable w : world.

(** The rails report good and the platform reset line is stuck
    asserted.  The S3->S0 call made in world [w] then ends 68 ms later (3
    ms, 15 ms and the 50 polls); from that moment on, the PCH having
    been forced off, both sleep lines read asserted.  Nothing is assumed
    about the sleep lines before that. *)
Hypothesis rails_S5 :
  forall lines t, has_all (in_signals env lines t) (IN_PGOOD_S5 b) = true.
Hypothesis rails_S0 :
  forall lines t, has_all (in_signals env lines t) (IN_PGOOD_S0 b) = true.
Hypothesis pltrst_stuck : forall t, pltrst_asserted env t <> 0.
Hypothesis slp_s3_low_after :
  forall t, now w + 68 * MSEC <= t -> pin_level env GPIO_PCH_SLP_S3_L t = 0.
Hypothesis slp_s4_low_after :
  forall t, now w + 68 * MSEC <= t -> pin_level env GPIO_PCH_SLP_S4_L t = 0.

Lemma stuck_S3S0 :
  result_of (power_handle_state b env POWER_S3S0 w) = POWER_S0
  /\ events_of (power_handle_state b env POWER_S3S0 w)
     = [EvGpioSet GPIO_PP5000_EN 1; EvSleep (3 * MSEC);
        EvGpioSet GPIO_PP3300_DX_EN 1; EvWireless WIRELESS_ON;
        EvGpioSet GPIO_TOUCHSCREEN_RESET_L 1; EvGpioSet GPIO_VCORE_EN 1;
        EvHook HOOK_CHIPSET_RESUME; EvDisableSleep SLEEP_MASK_AP_RUN;
        EvSleep (15 * MSEC); EvGpioSet GPIO_CPU_PROCHOT (throttle_cpu w);
        EvGpioSet GPIO_PCH_SYS_PWROK 1; EvGpioSet GPIO_PCH_CORE_PWROK 1]
       ++ repeat (EvSleep MSEC) 50
       ++ [EvConsole "power PLTRST# timeout" []; EvButtonRelease]
       ++ force_shutdown_events
  /\ restart_from_s5 (world_of (power_handle_state b env POWER_S3S0 w)) = 1
  /\ now (world_of (power_handle_state b env POWER_S3S0 w))
     = now w + 68 * MSEC.
Proof.
  unfold power_handle_state. unfold_m. cbn [now set_now set_gpio].
  rewrite power_wait_signals_ready by apply rails_S0.
  cbn [failed now set_now set_gpio throttle_cpu].
  match goal with
  | |- context [pltrst_poll env 50 0 ?W] =>
      rewrite (pltrst_poll_exhausted env 50 0 W)
        by (intros k Hk; apply pltrst_stuck)
  end.
  repeat split.
  change (now w + 3 * MSEC + 15 * MSEC + MSEC * Z.of_nat 50
          = now w + 68 * MSEC).
  unfold MSEC. lia.
Qed.

Lemma restart_S3S5 (w' : world) :
  restart_from_s5 w' <> 0 ->
  result_of (power_handle_state b env POWER_S3S5 w') = POWER_G3S5
  /\ events_of (power_handle_state b env POWER_S3S5 w')
     = [EvHook HOOK_CHIPSET_SHUTDOWN; EvGpioSet GPIO_PP5000_EN 0;
        EvWireless WIRELESS_OFF; EvGpioSet GPIO_ENABLE_TOUCHPAD 0;
        EvGpioSet GPIO_TOUCHSCREEN_RESET_L 0; EvGpioSet GPIO_PP1350_EN 0;
        EvConsole "power restart from S5" []; EvSleep (100 * MSEC);
        EvButtonPulse]
  /\ restart_from_s5 (world_of (power_handle_state b env POWER_S3S5 w')) = 0.
Proof.
  intros Hr. apply truthy_true in Hr.
  unfold power_handle_state. unfold_m.
  cbn [restart_from_s5 set_gpio]. rewrite Hr.
  repeat split.
Qed.

(** X12: Recovery from a stuck platform reset, end to end.  The S3->S0
    call whose poll runs out returns POWER_S0 68 ms after it began; with
    the sleep lines asserted from then on (whatever they read before),
    the following calls return POWER_S0S3, POWER_S3, POWER_S3S5 and
    POWER_G3S5, where [restart_from_s5] is cleared again and RSMRST# is
    still held low by the forced shutdown; the sixth call, the G3->S5
    script, drives RSMRST# and the suspend regulator high again and the
    machine waits in POWER_S5.  Over the run the hooks are RESUME,
    SUSPEND, SHUTDOWN (the resume hook fires although the power-on
    failed) and the power button is released and then pulsed, once
    each. *)
Theorem pltrst_timeout_recovery (n : nat) :
  map (fun k => result_of (repeat_handle_state b env k POWER_S3S0 w))
    [1; 2; 3; 4; 5]%nat
  = [POWER_S0; POWER_S0S3; POWER_S3; POWER_S3S5; POWER_G3S5]
  /\ now (world_of (power_handle_state b env POWER_S3S0 w)) = now w + 68 * MSEC
  /\ restart_from_s5 (world_of (repeat_handle_state b env 1 POWER_S3S0 w)) = 1
  /\ restart_from_s5 (world_of (repeat_handle_state b env 5 POWER_S3S0 w)) = 0
  /\ gpio (world_of (repeat_handle_state b env 5 POWER_S3S0 w))
          GPIO_PCH_RSMRST_L = 0
  /\ result_of (repeat_handle_state b env (6 + n) POWER_S3S0 w) = POWER_S5
  /\ hooks_fired (events_of (repeat_handle_state b env (6 + n) POWER_S3S0 w))
     = [HOOK_CHIPSET_RESUME; HOOK_CHIPSET_SUSPEND; HOOK_CHIPSET_SHUTDOWN]
  /\ button_events
       (events_of (repeat_handle_state b env (6 + n) POWER_S3S0 w))
     = [EvButtonRelease; EvButtonPulse]
  /\ map (gpio (world_of (repeat_handle_state b env (6 + n) POWER_S3S0 w)))
       [GPIO_PCH_RSMRST_L; GPIO_SUSP_VR_EN] = [1; 1].
Proof.
  set (w1 := world_of (power_handle_state b env POWER_S3S0 w)).
  set (w3 := world_of (power_handle_state b env POWER_S0S3 w1)).
  set (w4 := world_of (power_handle_state b env POWER_S3 w3)).
  set (w5 := world_of (power_handle_state b env POWER_S3S5 w4)).
  set (w6 := world_of (power_handle_state b env POWER_G3S5 w5)).
  destruct stuck_S3S0 as [Hs1 [He1 [Hr1 Ht1]]]. fold w1 in Hr1, Ht1.
  (* the clock from the end of the S3->S0 call on *)
  assert (Ht3 : now w1 <= now w3) by apply clock_moves_forward.
  assert (Ht4 : now w3 <= now w4) by apply clock_moves_forward.
  assert (Ht5 : now w4 <= now w5) by apply clock_moves_forward.
  assert (Ht6 : now w5 <= now w6) by apply clock_moves_forward.
  (* the four calls after it *)
  assert (Hp1 : pin_level env GPIO_PCH_SLP_S3_L (now w1) = 0)
    by (apply slp_s3_low_after; lia).
  assert (Hp3 : pin_level env GPIO_PCH_SLP_S3_L (now w3) = 0)
    by (apply slp_s3_low_after; lia).
  assert (Hq3 : pin_level env GPIO_PCH_SLP_S4_L (now w3) = 0)
    by (apply slp_s4_low_after; lia).
  pose proof (S0_suspends b env w1 (rails_S0 _ _) Hp1) as Hrun2.
  destruct (down_S0S3 b env w1) as [Hs3 [tail [Htail He3]]].
  destruct (S3_shuts_down b env w3 (rails_S5 _ _) Hp3 Hq3) as [Hs4 [He4 _]].
  assert (Hr4 : restart_from_s5 w4 <> 0).
  { subst w4 w3. rewrite !restart_kept by discriminate.
    rewrite Hr1. discriminate. }
  destruct (restart_S3S5 w4 Hr4) as [Hs5 [He5 Hr5]]. fold w5 in Hr5.
  assert (Hstep2 : forall m,
    repeat_handle_state b env (S m) POWER_S0 w1
    = repeat_handle_state b env m POWER_S0S3 w1).
  { intros m. cbn [repeat_handle_state]. unfold bind. rewrite Hrun2.
    destruct (repeat_handle_state b env m POWER_S0S3 w1) as [[r w'] e].
    reflexivity. }
  assert (Hrun : forall m,
    repeat_handle_state b env (5 + m) POWER_S3S0 w
    = (result_of (repeat_handle_state b env m POWER_G3S5 w5),
       world_of (repeat_handle_state b env m POWER_G3S5 w5),
       ([EvGpioSet GPIO_PP5000_EN 1; EvSleep (3 * MSEC);
         EvGpioSet GPIO_PP3300_DX_EN 1; EvWireless WIRELESS_ON;
         EvGpioSet GPIO_TOUCHSCREEN_RESET_L 1; EvGpioSet GPIO_VCORE_EN 1;
         EvHook HOOK_CHIPSET_RESUME; EvDisableSleep SLEEP_MASK_AP_RUN;
         EvSleep (15 * MSEC); EvGpioSet GPIO_CPU_PROCHOT (throttle_cpu w);
         EvGpioSet GPIO_PCH_SYS_PWROK 1; EvGpioSet GPIO_PCH_CORE_PWROK 1]
        ++ repeat (EvSleep MSEC) 50
        ++ [EvConsole "power PLTRST# timeout" []; EvButtonRelease]
        ++ force_shutdown_events)
       ++ ([EvHook HOOK_CHIPSET_SUSPEND; EvGpioSet GPIO_PCH_SYS_PWROK 0;
            EvGpioSet GPIO_PCH_CORE_PWROK 0; EvUdelay 1;
            EvGpioSet GPIO_VCORE_EN 0; EvWireless WIRELESS_SUSPEND;
            EvEnableSleep SLEEP_MASK_AP_RUN; EvGpioSet GPIO_CPU_PROCHOT 0;
            EvSleep (7 * MSEC); EvGpioSet GPIO_PP3300_DX_EN 0] ++ tail)
       ++ [EvGpioSet GPIO_TOUCHSCREEN_RESET_L (lid_open env (now w3));
           EvHook HOOK_CHIPSET_SHUTDOWN; EvGpioSet GPIO_PP5000_EN 0;
           EvWireless WIRELESS_OFF; EvGpioSet GPIO_ENABLE_TOUCHPAD 0;
           EvGpioSet GPIO_TOUCHSCREEN_RESET_L 0; EvGpioSet GPIO_PP1350_EN 0;
           EvConsole "power restart from S5" []; EvSleep (100 * MSEC);
           EvButtonPulse]
       ++ events_of (repeat_handle_state b env m POWER_G3S5 w5))).
  { intros m. cbn [Nat.add].
    rewrite (repeat_handle_state_step b env _ _ _ w _ Hs1 He1).
    fold w1. rewrite Hstep2.
    rewrite (repeat_handle_state_step b env _ _ _ w1 _ Hs3 He3).
    fold w3.
    rewrite (repeat_handle_state_step b env _ _ _ w3 _ Hs4 He4).
    fold w4.
    rewrite (repeat_handle_state_step b env _ _ _ w4 _ Hs5 He5).
    fold w5.
    cbv [result_of events_of world_of fst snd].
    first [reflexivity
          | f_equal; cbn [app]; rewrite <- ?app_assoc; reflexivity]. }
  assert (Hgpio : forall k g,
    gpio (world_of (repeat_handle_state b env k POWER_S3S0 w)) g
    = level_after g
        (gpio_writes (events_of (repeat_handle_state b env k POWER_S3S0 w)))
        (gpio w g))
    by (intros k g; apply tracked_repeat_handle_state).
  pose proof (Hrun 0%nat) as Hfive. cbn [Nat.add] in Hfive.
  (* the states after one to four calls *)
  assert (H1 : repeat_handle_state b env 1 POWER_S3S0 w
               = (POWER_S0, w1, events_of (power_handle_state b env POWER_S3S0 w))).
  { cbn [repeat_handle_state]. unfold bind, ret.
    unfold result_of, world_of, events_of in *.
    subst w1. destruct (power_handle_state b env POWER_S3S0 w) as [[a w'] e].
    cbn [fst snd] in *. subst a. rewrite app_nil_r. reflexivity. }
  assert (H2 : result_of (repeat_handle_state b env 2 POWER_S3S0 w)
               = POWER_S0S3).
  { rewrite (repeat_handle_state_step b env _ _ _ w _ Hs1 He1). fold w1.
    cbn [repeat_handle_state]. unfold bind. rewrite Hrun2. reflexivity. }
  assert (H3 : result_of (repeat_handle_state b env 3 POWER_S3S0 w)
               = POWER_S3).
  { rewrite (repeat_handle_state_step b env _ _ _ w _ Hs1 He1). fold w1.
    rewrite Hstep2.
    rewrite (repeat_handle_state_step b env _ _ _ w1 _ Hs3 He3).
    reflexivity. }
  assert (H4 : result_of (repeat_handle_state b env 4 POWER_S3S0 w)
               = POWER_S3S5).
  { rewrite (repeat_handle_state_step b env _ _ _ w _ Hs1 He1). fold w1.
    rewrite Hstep2.
    rewrite (repeat_handle_state_step b env _ _ _ w1 _ Hs3 He3). fold w3.
    rewrite (repeat_handle_state_step b env _ _ _ w3 _ Hs4 He4).
    reflexivity. }
  split; [| split; [| split; [| split; [| split]]]].
  - cbn [map]. rewrite H1, H2, H3, H4, Hfive. reflexivity.
  - exact Ht1.
  - rewrite H1. exact Hr1.
  - rewrite Hfive. exact Hr5.
  - rewrite Hgpio, Hfive.
    cbv [events_of snd]. cbn [repeat_handle_state ret snd].
    destruct Htail as [-> | ->]; reflexivity.
  - assert (Hsix : repeat_handle_state b env (6 + n) POWER_S3S0 w
                   = repeat_handle_state b env (5 + S n) POWER_S3S0 w)
      by reflexivity.
    assert (Hwait5 : repeat_handle_state b env n POWER_S5 w6
                     = (POWER_S5, w6, [])).
    { apply S5_waits. apply slp_s4_low_after. lia. }
    rewrite Hsix, (Hrun (S n)).
    rewrite (repeat_handle_state_step b env _ _ _ w5 _
               (proj1 (up_G3S5 b env rails_S5 w5))
               (proj2 (up_G3S5 b env rails_S5 w5))).
    fold w6. rewrite Hwait5.
    cbv [result_of events_of world_of fst snd].
    split; [reflexivity |].
    split; [destruct Htail as [-> | ->]; reflexivity |].
    split; [destruct Htail as [-> | ->]; reflexivity |].
    cbn [map].
    pose proof (Hgpio (5 + S n)%nat) as Hg. rewrite (Hrun (S n)) in Hg.
    rewrite (repeat_handle_state_step b env _ _ _ w5 _
               (proj1 (up_G3S5 b env rails_S5 w5))
               (proj2 (up_G3S5 b env rails_S5 w5))) in Hg.
    fold w6 in Hg. rewrite Hwait5 in Hg.
    cbv [result_of events_of world_of fst snd] in Hg.
    rewrite !Hg.
    destruct Htail as [-> | ->]; reflexivity.
Qed.

End Recovery.

Lemma pltrst_timeout_recovery_witness :
  result_of (power_handle_state sample_board recovery_env POWER_S3
               initial_world) = POWER_S3S0
  /\ map (fun k =>
            result_of
              (repeat_handle_state sample_board recovery_env k POWER_S3S0
                 (world_of (power_handle_state sample_board recovery_env
                              POWER_S3 initial_world))))
       [1; 2; 3; 4; 5]%nat
     = [POWER_S0; POWER_S0S3; POWER_S3; POWER_S3S5; POWER_G3S5]
  /\ result_of
       (repeat_handle_state sample_board recovery_env (6 + 1) POWER_S3S0
          (world_of (power_handle_state sample_board recovery_env
                       POWER_S3 initial_world))) = POWER_S5.
Proof.
  split; [reflexivity |].
  destruct (pltrst_timeout_recovery sample_board recovery_env
              (world_of (power_handle_state sample_board recovery_env
                           POWER_S3 initial_world)))
    with (n := 1%nat) as [Hstates [_ [_ [_ [_ [Hsix _]]]]]].
  - intros lines t. reflexivity.
  - intros lines t. reflexivity.
  - intros t. cbn [pltrst_asserted recovery_env]. lia.
  - intros t Ht. change (0 + 68 * 1000 <= t) in Ht.
    cbn [pin_level recovery_env].
    destruct (Z.ltb_spec t 68000); [lia | reflexivity].
  - intros t Ht. change (0 + 68 * 1000 <= t) in Ht.
    cbn [pin_level recovery_env].
    destruct (Z.ltb_spec t 68000); [lia | reflexivity].
  - split; [exact Hstates | exact Hsix].
Defined.

(** ** Failed power-ups undo their enables *)

(** X13: When a power-up script gives up on its rails it drives low again
    what it had driven high.  G3->S5 on timeout: the suspend regulator
    is back at 0 (with SYS PWROK and RSMRST# low from the forced
    shutdown), no hook fires, and the call lasted 10 ms plus the wait
    timeout.  S3->S0 on timeout: the 5 V and 3.3 V rails and the
    touchscreen reset are back at 0, wireless went on and then off, the
    core rail, CORE PWROK and PROCHOT were never touched, no hook fires
    and [restart_from_s5] is unchanged. *)
Theorem failed_power_up_rolls_back
  (b : board) (env : environment) (w : world) :
  (wait_all env (IN_PGOOD_S5 b) (lines_in_G3S5 w) (now w + 10 * MSEC)
     (wait_timeout env) = None ->
   result_of (power_handle_state b env POWER_G3S5 w) = POWER_G3
   /\ map (gpio (world_of (power_handle_state b env POWER_G3S5 w)))
        [GPIO_SUSP_VR_EN; GPIO_PCH_SYS_PWROK; GPIO_PCH_RSMRST_L] = [0; 0; 0]
   /\ hooks_fired (events_of (power_handle_state b env POWER_G3S5 w)) = []
   /\ now (world_of (power_handle_state b env POWER_G3S5 w))
      = now w + 10 * MSEC + Z.of_nat (wait_timeout env))
  /\ (wait_all env (IN_PGOOD_S0 b) (lines_in_S3S0 w) (now w + 3 * MSEC)
       (wait_timeout env) = None ->
   result_of (power_handle_state b env POWER_S3S0 w) = POWER_S3
   /\ map (gpio (world_of (power_handle_state b env POWER_S3S0 w)))
        [GPIO_PP5000_EN; GPIO_PP3300_DX_EN; GPIO_TOUCHSCREEN_RESET_L;
         GPIO_PCH_SYS_PWROK; GPIO_PCH_RSMRST_L] = [0; 0; 0; 0; 0]
   /\ map (gpio (world_of (power_handle_state b env POWER_S3S0 w)))
        [GPIO_VCORE_EN; GPIO_PCH_CORE_PWROK; GPIO_CPU_PROCHOT]
      = map (gpio w) [GPIO_VCORE_EN; GPIO_PCH_CORE_PWROK; GPIO_CPU_PROCHOT]
   /\ wireless_events (events_of (power_handle_state b env POWER_S3S0 w))
      = [WIRELESS_ON; WIRELESS_OFF]
   /\ hooks_fired (events_of (power_handle_state b env POWER_S3S0 w)) = []
   /\ restart_from_s5 (world_of (power_handle_state b env POWER_S3S0 w))
      = restart_from_s5 w).
Proof.
  split; intros Hwait;
    unfold power_handle_state; unfold_m; cbn [now set_now set_gpio];
    unfold power_wait_signals; norm_lines;
    rewrite Hwait; cbn [failed now set_now set_gpio];
    repeat split.
Qed.

Lemma failed_power_up_rolls_back_witness :
  result_of (power_handle_state sample_board (steady_env 0 0 0 0) POWER_S3S0
               initial_world) = POWER_S3
  /\ map (gpio (world_of (power_handle_state sample_board (steady_env 0 0 0 0)
                            POWER_S3S0 initial_world)))
       [GPIO_PP5000_EN; GPIO_PP3300_DX_EN; GPIO_TOUCHSCREEN_RESET_L;
        GPIO_PCH_SYS_PWROK; GPIO_PCH_RSMRST_L] = [0; 0; 0; 0; 0].
Proof.
  destruct (proj2 (failed_power_up_rolls_back sample_board
                     (steady_env 0 0 0 0) initial_world))
    as [Hres [Hlines _]].
  - reflexivity.
  - split; [exact Hres | exact Hlines].
Defined.

(** ** The IT83xx GPIO level functions *)

Section It83xxLevels.

Import It83xxGpio.

Variable signal : Type.
Variable gpio_list : signal -> gpio_info.

Lemma u8_bits (z n : Z) :
  0 <= n -> Z.testbit (u8 z) n = Z.testbit z n && (n <? 8).
Proof.
  intros Hn. unfold u8. change 255 with (Z.ones 8).
  rewrite Z.land_spec, Z.testbit_ones_nonneg by lia. reflexivity.
Qed.

Lemma not32_bits (z n : Z) :
  0 <= n -> Z.testbit (not32 z) n = xorb (Z.testbit z n) (n <? 32).
Proof.
  intros Hn. unfold not32. change 4294967295 with (Z.ones 32).
  rewrite Z.lxor_spec, Z.testbit_ones_nonneg by lia. reflexivity.
Qed.

Lemma u8_range (z : Z) : 0 <= u8 z < 256.
Proof.
  unfold u8. change 255 with (Z.ones 8). rewrite Z.land_ones by lia.
  apply Z.mod_pos_bound. lia.
Qed.

Lemma u8_small (z : Z) : 0 <= z < 256 -> u8 z = z.
Proof.
  intros H. unfold u8. change 255 with (Z.ones 8).
  rewrite Z.land_ones by lia. apply Z.mod_small. lia.
Qed.

(** X14: Writing a level and reading it back.  Driving a signal to 0 makes it
    read 0 whatever the register held.  Driving it to any nonzero value
    makes it read 1 provided its mask has a bit inside the 8-bit port;
    a signal whose mask has none (mask 0, an unimplemented signal) reads
    0 even right after being driven high. *)
Theorem it83xx_set_then_get (s : signal) (value : Z) (data : data_regs) :
  (value = 0 ->
   gpio_get_level signal gpio_list s
     (gpio_set_level signal gpio_list s value data) = 0)
  /\ (value <> 0 -> Z.land (mask (gpio_list s)) 255 <> 0 ->
      gpio_get_level signal gpio_list s
        (gpio_set_level signal gpio_list s value data) = 1)
  /\ (Z.land (mask (gpio_list s)) 255 = 0 ->
      gpio_get_level signal gpio_list s
        (gpio_set_level signal gpio_list s value data) = 0).
Proof.
  unfold gpio_get_level, gpio_set_level. rewrite Z.eqb_refl.
  split; [| split].
  - intros ->. cbn [truthy Z.eqb negb].
    replace (Z.land (u8 (Z.land (data (port (gpio_list s)))
                           (not32 (mask (gpio_list s)))))
               (mask (gpio_list s))) with 0; [reflexivity |].
    symmetry. apply Z.bits_inj'. intros n Hn.
    rewrite Z.land_spec, u8_bits, Z.land_spec, not32_bits, Z.bits_0 by lia.
    destruct (Z.ltb_spec n 8), (Z.ltb_spec n 32); try lia;
      destruct (Z.testbit (mask (gpio_list s)) n),
        (Z.testbit (data (port (gpio_list s))) n); reflexivity.
  - intros Hv Hm. apply truthy_true in Hv. rewrite Hv.
    destruct (Z.eqb_spec
                (Z.land (u8 (Z.lor (data (port (gpio_list s)))
                               (mask (gpio_list s))))
                   (mask (gpio_list s))) 0) as [E | E]; [| reflexivity].
    exfalso. apply Hm. apply Z.bits_inj'. intros n Hn.
    pose proof (f_equal (fun z => Z.testbit z n) E) as En. cbv beta in En.
    rewrite Z.land_spec, u8_bits, Z.lor_spec, Z.bits_0 in En by lia.
    rewrite Z.land_spec, Z.bits_0.
    change 255 with (Z.ones 8). rewrite Z.testbit_ones_nonneg by lia.
    destruct (Z.testbit (mask (gpio_list s)) n), (n <? 8),
      (Z.testbit (data (port (gpio_list s))) n);
      cbn in *; congruence.
  - intros Hm.
    assert (Hbit : forall n, 0 <= n ->
              Z.testbit (mask (gpio_list s)) n && (n <? 8) = false).
    { intros n Hn.
      pose proof (f_equal (fun z => Z.testbit z n) Hm) as En. cbv beta in En.
      rewrite Z.land_spec, Z.bits_0 in En.
      change 255 with (Z.ones 8) in En.
      rewrite Z.testbit_ones_nonneg in En by lia. exact En. }
    match goal with
    | |- (if Z.land ?x ?m =? 0 then _ else _) = _ =>
        replace (Z.land x m) with 0; [reflexivity |]
    end.
    symmetry. apply Z.bits_inj'. intros n Hn. specialize (Hbit n Hn).
    rewrite Z.land_spec, Z.bits_0.
    destruct (truthy value); rewrite u8_bits by lia;
      destruct (Z.testbit (mask (gpio_list s)) n), (n <? 8);
      cbn [andb] in Hbit; try discriminate Hbit;
      rewrite ?andb_false_r; reflexivity.
Qed.

End It83xxLevels.

Lemma it83xx_set_then_get_witness :
  It83xxGpio.gpio_get_level bool sample_gpio_list true
    (It83xxGpio.gpio_set_level bool sample_gpio_list true 5 (fun _ => 0)) = 1.
Proof.
  apply (it83xx_set_then_get bool sample_gpio_list true 5 (fun _ => 0));
    vm_compute; discriminate.
Defined.

Section It83xxFrame.

Import It83xxGpio.

Variable signal : Type.
Variable gpio_list : signal -> gpio_info.

(** X15: Setting one signal leaves the others alone.  With 8-bit registers,
    [gpio_set_level] keeps every register 8 bits wide, changes no
    register but the signal's own port, and does not change what
    [gpio_get_level] returns for any signal on another port or on the
    same port with a mask that shares no bit with the one written. *)
Theorem it83xx_set_level_frame
  (s s' : signal) (value : Z) (data : data_regs) :
  regs_ok data ->
  regs_ok (gpio_set_level signal gpio_list s value data)
  /\ (forall p, p <> port (gpio_list s) ->
        gpio_set_level signal gpio_list s value data p = data p)
  /\ (port (gpio_list s') <> port (gpio_list s)
      \/ Z.land (mask (gpio_list s)) (mask (gpio_list s')) = 0 ->
      gpio_get_level signal gpio_list s'
        (gpio_set_level signal gpio_list s value data)
      = gpio_get_level signal gpio_list s' data).
Proof.
  intros Hok. split; [| split].
  - intros p. unfold gpio_set_level.
    destruct (p =? port (gpio_list s)); [| apply Hok].
    destruct (truthy value); apply u8_range.
  - intros p Hp. unfold gpio_set_level.
    apply Z.eqb_neq in Hp. rewrite Hp. reflexivity.
  - intros Hsep. unfold gpio_get_level, gpio_set_level.
    destruct (Z.eqb_spec (port (gpio_list s')) (port (gpio_list s)))
      as [Heq | Hne]; [| reflexivity].
    destruct Hsep as [Hsep | Hsep]; [contradiction |].
    rewrite Heq.
    assert (Hdis : forall n, 0 <= n ->
              Z.testbit (mask (gpio_list s)) n
              && Z.testbit (mask (gpio_list s')) n = false).
    { intros n Hn.
      pose proof (f_equal (fun z => Z.testbit z n) Hsep) as En. cbv beta in En.
      rewrite Z.land_spec, Z.bits_0 in En. exact En. }
    assert (Hd : forall n, 0 <= n ->
              Z.testbit (data (port (gpio_list s))) n
              = Z.testbit (data (port (gpio_list s))) n && (n <? 8)).
    { intros n Hn. rewrite <- u8_bits by lia.
      rewrite (u8_small _ (Hok _)). reflexivity. }
    match goal with
    | |- (if Z.land ?x ?m =? 0 then _ else _)
         = (if Z.land ?y ?m =? 0 then _ else _) =>
        replace (Z.land x m) with (Z.land y m); [reflexivity |]
    end.
    apply Z.bits_inj'. intros n Hn.
    specialize (Hdis n Hn). specialize (Hd n Hn).
    rewrite !Z.land_spec.
    destruct (truthy value); rewrite u8_bits by lia;
      rewrite ?Z.lor_spec, ?Z.land_spec, ?not32_bits by lia;
      rewrite Hd;
      destruct (Z.ltb_spec n 8), (Z.ltb_spec n 32); try lia;
      destruct (Z.testbit (mask (gpio_list s)) n),
        (Z.testbit (mask (gpio_list s')) n),
        (Z.testbit (data (port (gpio_list s))) n);
      cbn in *; congruence.
Qed.

End It83xxFrame.

Lemma it83xx_set_level_frame_witness :
  It83xxGpio.gpio_get_level bool sample_gpio_list false
    (It83xxGpio.gpio_set_level bool sample_gpio_list true 1 (fun _ => 2))
  = It83xxGpio.gpio_get_level bool sample_gpio_list false (fun _ => 2).
Proof.
  apply (it83xx_set_level_frame bool sample_gpio_list true false 1
           (fun _ => 2)).
  - intros p. lia.
  - right. reflexivity.
Defined.

(** ** The boot shortcut and the first call *)

Lemma IN_PGOOD_S0_within_IN_ALL_S0 (b : board) (n : Z) :
  Z.testbit (IN_PGOOD_S0 b) n = true -> Z.testbit (IN_ALL_S0 b) n = true.
Proof.
  unfold IN_ALL_S0, IN_PGOOD_S0. rewrite !Z.lor_spec.
  intros H. apply orb_true_iff in H.
  destruct H as [-> | ->]; rewrite ?orb_true_r; reflexivity.
Qed.

(** X16: When [power_chipset_init] takes the shortcut and starts the machine
    in POWER_S0, the first [power_handle_state] call finds the S0 rails
    present: the mask that passed the IN_ALL_S0 test also passes the
    IN_PGOOD_S0 check made at the same instant, so no fault is logged
    and [chipset_force_shutdown] is not called.  The call stays in
    POWER_S0 unless the SLP_S3# pin, which the shortcut does not look
    at, reads low, and then it starts an ordinary suspend. *)
Theorem boot_shortcut_then_first_call
  (b : board) (env : environment) (w : world) :
  result_of (power_chipset_init b env w) = POWER_S0 ->
  power_handle_state b env POWER_S0 (world_of (power_chipset_init b env w))
  = (if pin_level env GPIO_PCH_SLP_S3_L (now w) =? 0
     then POWER_S0S3 else POWER_S0,
     w, []).
Proof.
  intros Hinit.
  assert (Hmask : Z.land (in_signals env (gpio w) (now w)) (IN_ALL_S0 b) = IN_ALL_S0 b
                  /\ world_of (power_chipset_init b env w) = w).
  { revert Hinit. unfold power_chipset_init. unfold_m.
    destruct (truthy (jumped_to_this_image env)); [| discriminate].
    destruct (Z.eqb_spec (Z.land (in_signals env (gpio w) (now w)) (IN_ALL_S0 b))
                (IN_ALL_S0 b)) as [E | E]; [| discriminate].
    intros _. split; [exact E | reflexivity]. }
  destruct Hmask as [Hall ->].
  assert (Hhas : has_all (in_signals env (gpio w) (now w)) (IN_PGOOD_S0 b) = true).
  { apply has_all_iff_bits. intros n Hn.
    apply (proj1 (land_eq_iff_bits _ _) Hall).
    apply IN_PGOOD_S0_within_IN_ALL_S0. exact Hn. }
  unfold power_handle_state, power_has_signals. unfold_m.
  rewrite Hhas. cbn [truthy negb Z.eqb].
  destruct (_ =? 0); reflexivity.
Qed.

Lemma boot_shortcut_then_first_call_witness :
  power_handle_state sample_board (steady_env 61 1 0 1) POWER_S0
    (world_of (power_chipset_init sample_board (steady_env 61 1 0 1)
                 initial_world))
  = (POWER_S0, initial_world, []).
Proof.
  apply (boot_shortcut_then_first_call sample_board (steady_env 61 1 0 1)
           initial_world).
  reflexivity.
Defined.
